(** * data_tool.data_processor: date-range filtering and export

    A shallow embedding of [src/data_tool/data_processor.py] and the
    properties of its filters, its batch step, its journal exporter and
    its two orchestrations.

    Conventions.
    - Python values the code handles are inductive types ([json], [cell],
      [exn]); a Python exception is the [Raise] branch of [result].
    - Code that prints, reads or writes files is a function from a [world]
      (file system, environment, standard output) to a new world and a
      [result]: what was written before an exception stays written.
    - The third-party parsers the code calls (pandas, json, dotenv) are the
      fields of a [Library] record every stateful function takes. *)

From Stdlib Require Import ZArith Ascii String List Bool Lia DecimalString.
From stdpp Require Import base option list strings gmap fin_maps.

Local Open Scope string_scope.
Local Open Scope Z_scope.

(** ** Exceptions and results *)

Inductive exn : Type :=
  | KeyError (key : string)
  | ValueError
  | TypeError
  | FileNotFoundError
  | FileExistsError
  | IsADirectoryError
  | NotADirectoryError
  | SameFileError
  | JSONDecodeError
  | ParserError.

Inductive result (A : Type) : Type :=
  | Ok (a : A)
  | Raise (e : exn).
Arguments Ok {A} a.
Arguments Raise {A} e.

Global Instance result_ret : MRet result := fun _ a => Ok a.
Global Instance result_bind : MBind result := fun _ _ k r =>
  match r with
  | Ok a => k a
  | Raise e => Raise e
  end.

(** ** datetime

    A naive [datetime.datetime] (and a naive pandas [Timestamp]): the
    fields Python compares, most significant first.  [subsec] is the part
    below one second, in nanoseconds; [strptime] without [%f] leaves it 0. *)

Record datetime : Type := mk_datetime {
  year : Z; month : Z; day : Z;
  hour : Z; minute : Z; second : Z;
  subsec : Z
}.

Definition dt_fields (d : datetime) : list Z :=
  [year d; month d; day d; hour d; minute d; second d; subsec d].

Fixpoint lex_compare (a b : list Z) : comparison :=
  match a, b with
  | [], [] => Eq
  | [], _ :: _ => Lt
  | _ :: _, [] => Gt
  | x :: a', y :: b' =>
      match Z.compare x y with
      | Eq => lex_compare a' b'
      | c => c
      end
  end.

Definition dt_compare (a b : datetime) : comparison :=
  lex_compare (dt_fields a) (dt_fields b).

(** [a <= b] and [a < b] on datetimes. *)
Definition dt_leb (a b : datetime) : bool :=
  match dt_compare a b with Gt => false | _ => true end.
Definition dt_ltb (a b : datetime) : bool :=
  match dt_compare a b with Lt => true | _ => false end.

(** The chained comparison [start <= t <= end]. *)
Definition in_range (start end_ t : datetime) : bool :=
  dt_leb start t && dt_leb t end_.

(** ** datetime.strptime

    [strptime] turns the format into a regular expression, matches it
    against the text ignoring case, refuses text left over after the
    match, and builds the datetime, which checks the calendar.  The
    expressions below are those of CPython's [_strptime] for the
    directives the program uses, over ASCII text; a match is searched the
    way the regex engine backtracks: alternatives in order, depth first. *)

Definition is_digit (c : ascii) : bool :=
  ((48 <=? nat_of_ascii c) && (nat_of_ascii c <=? 57))%nat.

Definition digit_val (c : ascii) : Z := Z.of_nat (nat_of_ascii c) - 48.

(** The character class [[lo-hi]] of digits. *)
Definition digit_in (lo hi : Z) (c : ascii) : bool :=
  is_digit c && (lo <=? digit_val c) && (digit_val c <=? hi).

Definition to_lower (c : ascii) : ascii :=
  let n := nat_of_ascii c in
  if ((65 <=? n) && (n <=? 90))%nat then ascii_of_nat (n + 32) else c.

(** A literal character of the format, matched ignoring case. *)
Definition re_lit (c : ascii) (s : list ascii) : list (list ascii) :=
  match s with
  | x :: r => if Ascii.eqb (to_lower x) (to_lower c) then [r] else []
  | [] => []
  end.

Definition re_1 (p : ascii -> bool) (s : list ascii) : list (Z * list ascii) :=
  match s with
  | a :: r => if p a then [(digit_val a, r)] else []
  | _ => []
  end.

Definition re_2 (p q : ascii -> bool) (s : list ascii) : list (Z * list ascii) :=
  match s with
  | a :: b :: r =>
      if p a && q b then [(10 * digit_val a + digit_val b, r)] else []
  | _ => []
  end.

(** [ [1-9]]: a space, then one digit. *)
Definition re_sp1 (p : ascii -> bool) (s : list ascii) : list (Z * list ascii) :=
  match s with
  | a :: b :: r =>
      if Ascii.eqb a " " && p b then [(digit_val b, r)] else []
  | _ => []
  end.

(** [%Y]: [\d\d\d\d] *)
Definition re_Y (s : list ascii) : list (Z * list ascii) :=
  match s with
  | a :: b :: c :: d :: r =>
      if is_digit a && is_digit b && is_digit c && is_digit d
      then [(1000 * digit_val a + 100 * digit_val b
             + 10 * digit_val c + digit_val d, r)]
      else []
  | _ => []
  end.

(** [%m]: [1[0-2]|0[1-9]|[1-9]] *)
Definition re_m (s : list ascii) : list (Z * list ascii) :=
  re_2 (digit_in 1 1) (digit_in 0 2) s
  ++ re_2 (digit_in 0 0) (digit_in 1 9) s
  ++ re_1 (digit_in 1 9) s.

(** [%d]: [3[0-1]|[1-2]\d|0[1-9]|[1-9]| [1-9]] *)
Definition re_d (s : list ascii) : list (Z * list ascii) :=
  re_2 (digit_in 3 3) (digit_in 0 1) s
  ++ re_2 (digit_in 1 2) is_digit s
  ++ re_2 (digit_in 0 0) (digit_in 1 9) s
  ++ re_1 (digit_in 1 9) s
  ++ re_sp1 (digit_in 1 9) s.

(** [%H]: [2[0-3]|[0-1]\d|\d] *)
Definition re_H (s : list ascii) : list (Z * list ascii) :=
  re_2 (digit_in 2 2) (digit_in 0 3) s
  ++ re_2 (digit_in 0 1) is_digit s
  ++ re_1 is_digit s.

(** [%M]: [[0-5]\d|\d] *)
Definition re_M (s : list ascii) : list (Z * list ascii) :=
  re_2 (digit_in 0 5) is_digit s ++ re_1 is_digit s.

(** [%S]: [6[0-1]|[0-5]\d|\d] *)
Definition re_S (s : list ascii) : list (Z * list ascii) :=
  re_2 (digit_in 6 6) (digit_in 0 1) s
  ++ re_2 (digit_in 0 5) is_digit s
  ++ re_1 is_digit s.

(** All matches of ["%Y-%m-%d"], in the order the engine finds them, each
    with the text it leaves. *)
Definition match_date (s : list ascii) : list (Z * Z * Z * list ascii) :=
  '(y, s) ← re_Y s;
  s ← re_lit "-" s;
  '(m, s) ← re_m s;
  s ← re_lit "-" s;
  '(d, s) ← re_d s;
  [(y, m, d, s)].

(** All matches of ["T%H:%M:%SZ"]. *)
Definition match_time (s : list ascii) : list (Z * Z * Z * list ascii) :=
  s ← re_lit "T" s;
  '(h, s) ← re_H s;
  s ← re_lit ":" s;
  '(mi, s) ← re_M s;
  s ← re_lit ":" s;
  '(sec, s) ← re_S s;
  s ← re_lit "Z" s;
  [(h, mi, sec, s)].

Definition is_leap (y : Z) : bool :=
  (y mod 4 =? 0) && (negb (y mod 100 =? 0) || (y mod 400 =? 0)).

Definition days_in_month (y m : Z) : Z :=
  if m =? 2 then (if is_leap y then 29 else 28)
  else if (m =? 4) || (m =? 6) || (m =? 9) || (m =? 11) then 30
  else 31.

(** The [datetime] constructor: [ValueError] outside the calendar. *)
Definition make_datetime (y m d h mi s : Z) : result datetime :=
  if (1 <=? y) && (y <=? 9999) && (1 <=? m) && (m <=? 12)
     && (1 <=? d) && (d <=? days_in_month y m)
     && (0 <=? h) && (h <=? 23) && (0 <=? mi) && (mi <=? 59)
     && (0 <=? s) && (s <=? 59)
  then Ok (mk_datetime y m d h mi s 0)
  else Raise ValueError.

(** [datetime.strptime(text, "%Y-%m-%d")] *)
Definition strptime_date (text : string) : result datetime :=
  match match_date (list_ascii_of_string text) with
  | [] => Raise ValueError
  | (y, m, d, rest) :: _ =>
      match rest with
      | [] => make_datetime y m d 0 0 0
      | _ :: _ => Raise ValueError
      end
  end.

(** [datetime.strptime(text, "%Y-%m-%dT%H:%M:%SZ")] *)
Definition match_ts (s : list ascii) : list (Z * Z * Z * (Z * Z * Z) * list ascii) :=
  '(y, m, d, s) ← match_date s;
  '(h, mi, sec, s) ← match_time s;
  [(y, m, d, (h, mi, sec), s)].

Definition strptime_ts (text : string) : result datetime :=
  match match_ts (list_ascii_of_string text) with
  | [] => Raise ValueError
  | (y, m, d, (h, mi, sec), rest) :: _ =>
      match rest with
      | [] => make_datetime y m d h mi sec
      | _ :: _ => Raise ValueError
      end
  end.

(** ** JSON values

    What [json.load] returns.  An object is the association list of its
    members in document order (the loader keeps one member per key); a
    float carries the text [str] gives it. *)

#[local] Set Warnings "-register-all".
Inductive json : Type :=
  | JNull
  | JBool (b : bool)
  | JInt (z : Z)
  | JFloat (text : string)
  | JStr (s : string)
  | JList (items : list json)
  | JDict (members : list (string * json)).

Fixpoint dict_get (members : list (string * json)) (key : string) : option json :=
  match members with
  | [] => None
  | (k, v) :: rest => if String.eqb k key then Some v else dict_get rest key
  end.

(** [v[key]] for a string key: [KeyError] on a dict without the key,
    [TypeError] on anything that is not a dict. *)
Definition getitem (v : json) (key : string) : result json :=
  match v with
  | JDict members =>
      match dict_get members key with
      | Some x => Ok x
      | None => Raise (KeyError key)
      end
  | _ => Raise TypeError
  end.

(** [for entry in data]: the items of a list, the keys of a dict, the
    characters of a string; anything else is not iterable. *)
Definition iterate (data : json) : result (list json) :=
  match data with
  | JList items => Ok items
  | JDict members => Ok (map (fun kv => JStr (fst kv)) members)
  | JStr s => Ok (map (fun c => JStr (String c EmptyString)) (list_ascii_of_string s))
  | _ => Raise TypeError
  end.

Definition str_of_Z (z : Z) : string := NilZero.string_of_int (Z.to_int z).

(** ** Tabular data

    A [DataFrame] as rows under a header.  A cell of a column as read is
    the text of its field, or NaN for an empty field; a cell of a column
    converted by [pd.to_datetime] is a timestamp or NaT ([CTime None]). *)

Inductive cell : Type :=
  | CNaN
  | CText (s : string)
  | CTime (t : option datetime).

Record DataFrame : Type := mk_frame {
  columns : list string;
  rows : list (list cell)
}.

(** ** The file system, the environment and standard output *)

Inductive node : Type :=
  | Dir
  | File (content : string) (mtime : datetime).

Record world : Type := mk_world {
  fs : gmap string node;
  environ : gmap string string;
  stdout : list string;
  (** the time stamped on a file written during the run *)
  clock : datetime
}.

(** The world with another file system, and with one more line printed. *)
Definition with_fs (w : world) (f : gmap string node) : world :=
  mk_world f (environ w) (stdout w) (clock w).

Definition with_line (w : world) (line : string) : world :=
  mk_world (fs w) (environ w) (stdout w ++ [line]) (clock w).

Definition with_environ (w : world) (env : gmap string string) : world :=
  mk_world (fs w) env (stdout w) (clock w).

(** ** Third-party code

    The parsers and printers of pandas, json and dotenv, and the text of
    an exception, as functions the program is given. *)

Record Library : Type := mk_library {
  (** [pd.read_csv] on the text of a file *)
  read_csv_text : string -> result DataFrame;
  (** [DataFrame.to_csv(index=False)]: the text written *)
  to_csv_text : DataFrame -> string;
  (** [pd.to_datetime] on one field of a column: a timestamp, NaT, or an
      exception for text that is no date *)
  to_datetime_text : string -> result (option datetime);
  (** [json.load] on the text of a file *)
  json_loads : string -> result json;
  (** [str] of a list or dict *)
  str_compound : json -> string;
  (** [str(e)] *)
  str_exn : exn -> string;
  (** [load_dotenv()]: the environment once the [.env] file is read *)
  load_dotenv_env : gmap string node -> gmap string string -> gmap string string
}.

(** ** Computations on the world *)

Definition M (A : Type) : Type := world -> world * result A.

Definition ret {A} (a : A) : M A := fun w => (w, Ok a).
Definition lift {A} (r : result A) : M A := fun w => (w, r).

Definition bind {A B} (m : M A) (k : A -> M B) : M B := fun w =>
  match m w with
  | (w', Ok a) => k a w'
  | (w', Raise e) => (w', Raise e)
  end.

Notation "'let*' x := m 'in' k" := (bind m (fun x => k))
  (at level 10, x pattern, m at level 200, k at level 200,
   format "'[v' 'let*'  x  :=  m  'in' '/' k ']'").
Notation "m ;; k" := (bind m (fun _ => k))
  (at level 100, k at level 200, right associativity).

(** [try: m except Exception as e: h e] *)
Definition catch {A} (m : M A) (h : exn -> M A) : M A := fun w =>
  match m w with
  | (w', Ok a) => (w', Ok a)
  | (w', Raise e) => h e w'
  end.

(** [for x in l: body x] *)
Fixpoint for_each {A} (l : list A) (body : A -> M unit) : M unit :=
  match l with
  | [] => ret tt
  | x :: rest => body x ;; for_each rest body
  end.

Definition get_world : M world := fun w => (w, Ok w).

Definition print (line : string) : M unit := fun w => (with_line w line, Ok tt).

(** ** Paths (posixpath) *)

Definition chars (s : string) : list ascii := list_ascii_of_string s.
Definition text (l : list ascii) : string := string_of_list_ascii l.

Definition is_sep (c : ascii) : bool := Ascii.eqb c "/".

(** [s.startswith(p)] and [s.endswith(p)] *)
Definition startswith (s p : string) : bool :=
  bool_decide (chars p `prefix_of` chars s).
Definition endswith (s p : string) : bool :=
  bool_decide (chars p `suffix_of` chars s).

(** A directory path as the prefix of the paths of its entries. *)
Definition dir_prefix (d : string) : string :=
  if String.eqb d "" || endswith d "/" then d else d +:+ "/".

(** [os.path.join(a, b)] *)
Definition os_path_join (a b : string) : string :=
  if startswith b "/" then b else dir_prefix a +:+ b.

Fixpoint take_until_sep (l : list ascii) : list ascii :=
  match l with
  | [] => []
  | c :: r => if is_sep c then [] else c :: take_until_sep r
  end.

Fixpoint drop_until_sep (l : list ascii) : list ascii :=
  match l with
  | [] => []
  | c :: r => if is_sep c then l else drop_until_sep r
  end.

Fixpoint drop_seps (l : list ascii) : list ascii :=
  match l with
  | [] => []
  | c :: r => if is_sep c then drop_seps r else l
  end.

(** [os.path.split(p)]: the text up to the last separator, without its
    trailing separators unless it is made of separators only, and the text
    after the last separator. *)
Definition os_path_split (p : string) : string * string :=
  let r := rev (chars p) in
  let head_r := drop_until_sep r in
  let head_r := if forallb is_sep head_r then head_r else drop_seps head_r in
  (text (rev head_r), text (rev (take_until_sep r))).

Definition os_path_dirname (p : string) : string := fst (os_path_split p).
Definition os_path_basename (p : string) : string := snd (os_path_split p).

(** The directories above [p]: for every separator of [p] that follows a
    character other than a separator, the text before it. *)
Fixpoint ancestors_from (seen rest : list ascii) : list string :=
  match rest with
  | [] => []
  | c :: rest' =>
      let here :=
        match rev seen with
        | [] => []
        | last :: _ => if is_sep c && negb (is_sep last) then [text seen] else []
        end in
      here ++ ancestors_from (seen ++ [c]) rest'
  end.

Definition ancestors (p : string) : list string := ancestors_from [] (chars p).

(** ** The file system calls the program makes

    A path is the key it is written as: two spellings of one path are two
    keys.  Permissions, quotas and devices are not modelled. *)

Definition is_dir (f : gmap string node) (p : string) : bool :=
  match f !! p with Some Dir => true | _ => false end.

Definition is_file (f : gmap string node) (p : string) : bool :=
  match f !! p with Some (File _ _) => true | _ => false end.

(** [os.path.exists(p)] *)
Definition os_path_exists (f : gmap string node) (p : string) : bool :=
  match f !! p with Some _ => true | None => false end.

(** The directory a new entry [p] goes into is there: the current
    directory, the root, or a directory of the map. *)
Definition parent_ok (f : gmap string node) (p : string) : bool :=
  let d := os_path_dirname p in
  forallb is_sep (chars d) || is_dir f d.

Definition add_dir (f : gmap string node) (p : string) : gmap string node :=
  match f !! p with
  | None => <[p := Dir]> f
  | Some _ => f
  end.

(** [os.makedirs(p, exist_ok=True)]: makes [p] and the directories above
    it that are missing; fails on the empty path, and when [p] or a
    directory above it is a regular file. *)
Definition os_makedirs (p : string) (f : gmap string node) : result (gmap string node) :=
  if String.eqb p "" then Raise FileNotFoundError
  else if is_file f p then Raise FileExistsError
  else if existsb (is_file f) (ancestors p) then Raise NotADirectoryError
  else Ok (add_dir (foldl add_dir f (ancestors p)) p).

(** [open(p, "w")]: the file is created or emptied. *)
Definition open_w (now : datetime) (p : string) (f : gmap string node)
  : result (gmap string node) :=
  if is_dir f p || String.eqb (os_path_basename p) "" then Raise IsADirectoryError
  else if parent_ok f p then Ok (<[p := File "" now]> f)
  else Raise FileNotFoundError.

(** [file.write(s)] on the file opened at [p] *)
Definition append_file (now : datetime) (p : string) (s : string)
  (f : gmap string node) : gmap string node :=
  match f !! p with
  | Some (File c _) => <[p := File (c +:+ s) now]> f
  | _ => <[p := File s now]> f
  end.

(** [open(p, "r")] and reading the whole file *)
Definition read_file (f : gmap string node) (p : string) : result string :=
  match f !! p with
  | Some (File c _) => Ok c
  | Some Dir => Raise IsADirectoryError
  | None => Raise FileNotFoundError
  end.

(** The name [k] has under the directory [d], when [k] is an entry of [d]. *)
Definition entry_name (d k : string) : option string :=
  let pre := chars (dir_prefix d) in
  if bool_decide (pre `prefix_of` chars k) then
    let name := drop (length pre) (chars k) in
    if bool_decide (name = []) || existsb is_sep name then None
    else Some (text name)
  else None.

(** [os.listdir(d)] *)
Definition os_listdir (f : gmap string node) (d : string) : result (list string) :=
  match f !! d with
  | Some Dir => Ok (omap (fun kv => entry_name d (fst kv)) (map_to_list f))
  | Some (File _ _) => Raise NotADirectoryError
  | None => Raise FileNotFoundError
  end.

(** [datetime.fromtimestamp(os.path.getmtime(p))] *)
Definition getmtime (f : gmap string node) (p : string) : result datetime :=
  match f !! p with
  | Some (File _ t) => Ok t
  | Some Dir => Raise IsADirectoryError
  | None => Raise FileNotFoundError
  end.

(** [shutil.copy(src, dst)] *)
Definition shutil_copy (now : datetime) (src dst : string) (f : gmap string node)
  : result (gmap string node) :=
  let target := if is_dir f dst then os_path_join dst (os_path_basename src) else dst in
  if String.eqb src target then Raise SameFileError
  else
    c ← read_file f src;
    f' ← open_w now target f;
    Ok (append_file now target c f').

(** Calls on the file system of the world. *)
Definition fs_update (op : gmap string node -> result (gmap string node)) : M unit :=
  fun w =>
    match op (fs w) with
    | Ok f' => (with_fs w f', Ok tt)
    | Raise e => (w, Raise e)
    end.

Definition fs_read {A} (op : gmap string node -> result A) : M A :=
  fun w => (w, op (fs w)).

Definition write (p s : string) : M unit := fun w =>
  (with_fs w (append_file (clock w) p s (fs w)), Ok tt).

Definition makedirs (p : string) : M unit := fs_update (os_makedirs p).

Definition open_write (p : string) : M unit := fun w =>
  fs_update (open_w (clock w) p) w.

(** [os.getenv(name)] *)
Definition getenv (name : string) : M (option string) := fun w =>
  (w, Ok (environ w !! name)).

(** A value Python takes as true: a string that is there and not empty. *)
Definition truthy (o : option string) : option string :=
  match o with
  | Some s => if String.eqb s "" then None else Some s
  | None => None
  end.

Definition nl : string := String (ascii_of_nat 10) EmptyString.

(** * The program *)

Section Program.

Context (lib : Library).

(** [str(v)], as an f-string formats a value. *)
Definition py_str (v : json) : string :=
  match v with
  | JNull => "None"
  | JBool true => "True"
  | JBool false => "False"
  | JInt z => str_of_Z z
  | JFloat t => t
  | JStr s => s
  | JList _ | JDict _ => str_compound lib v
  end.

Definition load_dotenv : M unit := fun w =>
  (with_environ w (load_dotenv_env lib (fs w) (environ w)), Ok tt).

(** ** filter_data_by_date (lines 9-33) *)

Fixpoint column_index (name : string) (cols : list string) : option nat :=
  match cols with
  | [] => None
  | c :: rest =>
      if String.eqb c name then Some O else S <$> column_index name rest
  end.

(** A row shorter than the header reads as NaN past its end. *)
Definition get_cell (i : nat) (row : list cell) : cell := nth i row CNaN.

Fixpoint set_cell (i : nat) (v : cell) (row : list cell) : list cell :=
  match i, row with
  | O, [] => [v]
  | O, _ :: r => v :: r
  | S i', [] => CNaN :: set_cell i' v []
  | S i', c :: r => c :: set_cell i' v r
  end.

Definition to_datetime_cell (c : cell) : result (option datetime) :=
  match c with
  | CNaN => Ok None
  | CText s => to_datetime_text lib s
  | CTime t => Ok t
  end.

Definition convert_row (i : nat) (row : list cell) : result (list cell) :=
  t ← to_datetime_cell (get_cell i row);
  Ok (set_cell i (CTime t) row).

Fixpoint map_result {A B} (f : A -> result B) (l : list A) : result (list B) :=
  match l with
  | [] => Ok []
  | x :: rest =>
      y ← f x;
      ys ← map_result f rest;
      Ok (y :: ys)
  end.

(** [(data[col] >= start) & (data[col] <= end)] on one row: a comparison
    with NaT is false. *)
Definition row_in_range (i : nat) (start end_ : datetime) (row : list cell) : bool :=
  match get_cell i row with
  | CTime (Some t) => dt_leb start t && dt_leb t end_
  | _ => false
  end.

(** Lines 26-31, on the frame [pd.read_csv] returned. *)
Definition filter_frame (data : DataFrame) (start_date end_date date_column : string)
  : result DataFrame :=
  match column_index date_column (columns data) with
  | None => Raise (KeyError date_column)
  | Some i =>
      converted ← map_result (convert_row i) (rows data);
      start ← strptime_date start_date;
      end_ ← strptime_date end_date;
      Ok (mk_frame (columns data) (List.filter (row_in_range i start end_) converted))
  end.

Definition filter_data_by_date (f : gmap string node)
  (file_path start_date end_date date_column : string) : result DataFrame :=
  content ← read_file f file_path;
  data ← read_csv_text lib content;
  filter_frame data start_date end_date date_column.

(** ** process_data_sources (lines 35-54) *)

Definition process_source (start_date end_date : string)
  (source : string * string * string) : M unit :=
  let '(file_path, date_column, output_path) := source in
  let* w := get_world in
  if negb (os_path_exists (fs w) file_path) then
    print ("File not found: " +:+ file_path)
  else
    print ("Processing file: " +:+ file_path) ;;
    let* filtered_data :=
      fs_read (fun f => filter_data_by_date f file_path start_date end_date date_column) in
    open_write output_path ;;
    write output_path (to_csv_text lib filtered_data) ;;
    print ("Filtered data saved to: " +:+ output_path).

Definition process_data_sources (sources : list (string * string * string))
  (start_date end_date : string) : M unit :=
  for_each sources (process_source start_date end_date).

(** ** filter_spotify_data (lines 56-79) *)

(** [datetime.strptime(entry["ts"], "%Y-%m-%dT%H:%M:%SZ")] *)
Definition entry_ts (entry : json) : result datetime :=
  ts ← getitem entry "ts";
  match ts with
  | JStr s => strptime_ts s
  | _ => Raise TypeError
  end.

(** The list comprehension of lines 74-77. *)
Fixpoint filter_entries (start end_ : datetime) (data : list json) : result (list json) :=
  match data with
  | [] => Ok []
  | entry :: rest =>
      t ← entry_ts entry;
      kept ← filter_entries start end_ rest;
      Ok (if dt_leb start t && dt_leb t end_ then entry :: kept else kept)
  end.

Definition filter_spotify_data (f : gmap string node)
  (file_path start_date end_date : string) : result (list json) :=
  start ← strptime_date start_date;
  end_ ← strptime_date end_date;
  content ← read_file f file_path;
  data ← json_loads lib content;
  entries ← iterate data;
  filter_entries start end_ entries.

(** ** save_spotify_data_for_journaling (lines 81-107) *)

Definition journal_entry (entry : json) : result string :=
  ts ← getitem entry "ts";
  track ← getitem entry "master_metadata_track_name";
  artist ← getitem entry "master_metadata_album_artist_name";
  album ← getitem entry "master_metadata_album_album_name";
  platform ← getitem entry "platform";
  ms_played ← getitem entry "ms_played";
  Ok ("Date: " +:+ py_str ts +:+ nl
      +:+ "Track: " +:+ py_str track +:+ nl
      +:+ "Artist: " +:+ py_str artist +:+ nl
      +:+ "Album: " +:+ py_str album +:+ nl
      +:+ "Platform: " +:+ py_str platform +:+ nl
      +:+ "Time Played: " +:+ py_str ms_played +:+ " ms" +:+ nl
      +:+ "---" +:+ nl).

Definition journal_name (start_date end_date : string) : string :=
  "spotify_journal_" +:+ start_date +:+ "_to_" +:+ end_date +:+ ".txt".

Definition save_spotify_data_for_journaling (filtered_data : list json)
  (output_dir start_date end_date : string) : M unit :=
  makedirs output_dir ;;
  let output_file := os_path_join output_dir (journal_name start_date end_date) in
  open_write output_file ;;
  for_each filtered_data (fun entry =>
    let* record := lift (journal_entry entry) in
    write output_file record) ;;
  print ("Journal-ready Spotify data saved to: " +:+ output_file).

(** ** process_spotify_data (lines 109-139) *)

Definition is_history_file (file_name : string) : bool :=
  startswith file_name "Streaming_History_Audio" && endswith file_name ".json".

Definition process_spotify_file (spotify_path output_dir start_date end_date : string)
  (file_name : string) : M unit :=
  if is_history_file file_name then
    let file_path := os_path_join spotify_path file_name in
    print ("Processing Spotify file: " +:+ file_path) ;;
    let* filtered_data :=
      fs_read (fun f => filter_spotify_data f file_path start_date end_date) in
    save_spotify_data_for_journaling filtered_data output_dir start_date end_date
  else ret tt.

Definition process_spotify_data (start_date end_date : string) : M unit :=
  load_dotenv ;;
  let* spotify_path := getenv "SPOTIFY_DATA_PATH" in
  let* output_dir := getenv "OUTPUT_PATH" in
  let* w := get_world in
  match truthy spotify_path with
  | None => print "Spotify data path not found or not specified in .env file."
  | Some spotify_path =>
      if negb (os_path_exists (fs w) spotify_path) then
        print "Spotify data path not found or not specified in .env file."
      else
        match truthy output_dir with
        | None => print "Output path not specified in .env file."
        | Some output_dir =>
            makedirs output_dir ;;
            let* names := fs_read (fun f => os_listdir f spotify_path) in
            for_each names
              (process_spotify_file spotify_path output_dir start_date end_date)
        end
  end.

(** ** process_screenshots (lines 141-176) *)

Definition process_screenshot (screenshots_path screenshots_output_dir : string)
  (start end_ : datetime) (file_name : string) : M unit :=
  let file_path := os_path_join screenshots_path file_name in
  let* w := get_world in
  if is_file (fs w) file_path then
    catch
      (let* file_date := fs_read (fun f => getmtime f file_path) in
       if dt_leb start file_date && dt_leb file_date end_ then
         fs_update (shutil_copy (clock w) file_path screenshots_output_dir) ;;
         print ("Copied screenshot: " +:+ file_name)
       else ret tt)
      (fun e =>
         print ("Error processing file " +:+ file_name +:+ ": " +:+ str_exn lib e))
  else ret tt.

Definition process_screenshots (start_date end_date : string) : M unit :=
  load_dotenv ;;
  let* screenshots_path := getenv "SCREENSHOTS_PATH" in
  let* output_dir := getenv "OUTPUT_PATH" in
  let* w := get_world in
  match truthy screenshots_path with
  | None => print "Screenshots path not found or not specified in .env file."
  | Some screenshots_path =>
      if negb (os_path_exists (fs w) screenshots_path) then
        print "Screenshots path not found or not specified in .env file."
      else
        match truthy output_dir with
        | None => print "Output path not specified in .env file."
        | Some output_dir =>
            let screenshots_output_dir := os_path_join output_dir "screenshots" in
            makedirs screenshots_output_dir ;;
            let* start := lift (strptime_date start_date) in
            let* end_ := lift (strptime_date end_date) in
            let* names := fs_read (fun f => os_listdir f screenshots_path) in
            for_each names
              (process_screenshot screenshots_path screenshots_output_dir start end_)
        end
  end.

(** ** process_all_data (lines 178-187) *)

Definition process_all_data (start_date end_date : string) : M unit :=
  process_spotify_data start_date end_date ;;
  process_screenshots start_date end_date.

End Program.

(** * The vocabulary of the properties *)

(** The entries the comprehension keeps, once every timestamp parses. *)
Definition keeps (start end_ : datetime) (entry : json) : bool :=
  match entry_ts entry with
  | Ok t => in_range start end_ t
  | Raise _ => false
  end.

Definition entry_time (entry : json) : option datetime :=
  match entry_ts entry with
  | Ok t => Some t
  | Raise _ => None
  end.

(** The date column of [row'] is that of [row], converted. *)
Definition converted_from (lib : Library) (i : nat) (row row' : list cell) : Prop :=
  exists t, to_datetime_cell lib (get_cell i row) = Ok t
            /\ row' = set_cell i (CTime t) row.

(** The timestamp of a row of a converted column; none for NaT. *)
Definition row_ts (i : nat) (row : list cell) : option datetime :=
  match get_cell i row with
  | CTime t => t
  | _ => None
  end.

(** The entries a log file holds, and the frame a tabular file holds, as
    the filters read them. *)
Definition read_entries (lib : Library) (f : gmap string node) (file_path : string)
  : result (list json) :=
  content ← read_file f file_path;
  data ← json_loads lib content;
  iterate data.

Definition read_frame (lib : Library) (f : gmap string node) (file_path : string)
  : result DataFrame :=
  content ← read_file f file_path;
  read_csv_text lib content.

(** ** The exhaustive partition

    [kept] against [input], for records whose timestamp is [ts]: nothing
    new, every record kept lies in the range, every record left out that
    has a timestamp lies strictly outside, and a record on a boundary of a
    range that is not empty is kept. *)
Definition partitions {A} (ts : A -> option datetime) (start end_ : datetime)
  (input kept : list A) : Prop :=
  kept ⊆ input
  /\ (forall x, x ∈ kept ->
        exists t, ts x = Some t /\ dt_leb start t = true /\ dt_leb t end_ = true)
  /\ (forall x t, x ∈ input -> ts x = Some t -> x ∉ kept ->
        dt_ltb t start = true \/ dt_ltb end_ t = true)
  /\ (forall x t, x ∈ input -> ts x = Some t -> dt_leb start end_ = true ->
        t = start \/ t = end_ -> x ∈ kept).

(** ** The journal

    The six members of an entry the exporter reads, in the order it reads
    them. *)
Definition journal_fields : list string :=
  ["ts"; "master_metadata_track_name"; "master_metadata_album_artist_name";
   "master_metadata_album_album_name"; "platform"; "ms_played"].

(** An entry that has the six members. *)
Definition has_journal_fields (entry : json) : Prop :=
  exists members, entry = JDict members
    /\ Forall (fun key => is_Some (dict_get members key)) journal_fields.

(** The text of member [key] of [entry] in a record. *)
Definition field_text (lib : Library) (entry : json) (key : string) : string :=
  match getitem entry key with
  | Ok v => py_str lib v
  | Raise _ => ""
  end.

(** The record of an entry that has the six members. *)
Definition record_of (lib : Library) (entry : json) : string :=
  "Date: " +:+ field_text lib entry "ts" +:+ nl
  +:+ "Track: " +:+ field_text lib entry "master_metadata_track_name" +:+ nl
  +:+ "Artist: " +:+ field_text lib entry "master_metadata_album_artist_name" +:+ nl
  +:+ "Album: " +:+ field_text lib entry "master_metadata_album_album_name" +:+ nl
  +:+ "Platform: " +:+ field_text lib entry "platform" +:+ nl
  +:+ "Time Played: " +:+ field_text lib entry "ms_played" +:+ " ms" +:+ nl
  +:+ "---" +:+ nl.

Definition concat_all (l : list string) : string := fold_right String.append "" l.

(** What the loop of lines 95-105 writes, and how it ends: the records of
    the entries up to the first one that raises. *)
Fixpoint render (lib : Library) (data : list json) : string * result unit :=
  match data with
  | [] => ("", Ok tt)
  | entry :: rest =>
      match journal_entry lib entry with
      | Ok record => (record +:+ fst (render lib rest), snd (render lib rest))
      | Raise e => ("", Raise e)
      end
  end.

Definition journal_path (output_dir start_date end_date : string) : string :=
  os_path_join output_dir (journal_name start_date end_date).

(** ** Dates of the boundary scenario, and files left alone *)

Definition dec_24 : datetime := mk_datetime 2023 12 24 0 0 0 0.
Definition dec_31 : datetime := mk_datetime 2023 12 31 0 0 0 0.
Definition dec_31_last_second : datetime := mk_datetime 2023 12 31 23 59 59 0.

(** The regular files of [g], the one at [p] apart, are those of [f]. *)
Definition same_files_except (p : string) (f g : gmap string node) : Prop :=
  forall q c t, q <> p -> g !! q = Some (File c t) <-> f !! q = Some (File c t).

(** * A library for the examples

    Stand-ins for pandas, json and dotenv that agree with them on the
    files of the examples below: comma-separated text without quoting, ISO
    dates, JSON documents listed in a table, no [.env] file. *)

Module Demo.

Fixpoint split_on (sep : ascii) (cur : list ascii) (l : list ascii) : list string :=
  match l with
  | [] => [text (rev cur)]
  | c :: r =>
      if Ascii.eqb c sep then text (rev cur) :: split_on sep [] r
      else split_on sep (c :: cur) r
  end.

Definition fields (line : string) : list string := split_on "," [] (chars line).

Definition lines (s : string) : list string :=
  List.filter (fun l => negb (String.eqb l "")) (split_on (ascii_of_nat 10) [] (chars s)).

Definition read_cell (s : string) : cell :=
  if String.eqb s "" then CNaN else CText s.

Definition read_csv (s : string) : result DataFrame :=
  match lines s with
  | [] => Raise ParserError
  | header :: body => Ok (mk_frame (fields header) (map (fun l => map read_cell (fields l)) body))
  end.

Definition pad2 (z : Z) : string :=
  if z <? 10 then "0" +:+ str_of_Z z else str_of_Z z.

Definition show_cell (c : cell) : string :=
  match c with
  | CNaN | CTime None => ""
  | CText s => s
  | CTime (Some t) =>
      str_of_Z (year t) +:+ "-" +:+ pad2 (month t) +:+ "-" +:+ pad2 (day t)
  end.

Fixpoint join_with (sep : string) (l : list string) : string :=
  match l with
  | [] => ""
  | [x] => x
  | x :: r => x +:+ sep +:+ join_with sep r
  end.

Definition to_csv (d : DataFrame) : string :=
  String.concat "" (map (fun l => l +:+ nl)
    (join_with "," (columns d) :: map (fun r => join_with "," (map show_cell r)) (rows d))).

Definition to_datetime (s : string) : result (option datetime) :=
  match strptime_date s with
  | Ok t => Ok (Some t)
  | Raise e => Raise e
  end.

Definition entry (ts track : string) : json :=
  JDict [("ts", JStr ts);
         ("platform", JStr "android");
         ("ms_played", JInt 1000);
         ("master_metadata_track_name", JStr track);
         ("master_metadata_album_artist_name", JNull);
         ("master_metadata_album_album_name", JStr "Album")].

Definition documents : list (string * json) :=
  [("A", JList [entry "2023-12-25T10:00:00Z" "first"]);
   ("B", JList [entry "2023-12-26T11:30:00Z" "second"]);
   ("C", JList [entry "2023-12-24T00:00:00Z" "start"; entry "2023-12-31T23:59:59Z" "end"]);
   ("D", JList [entry "2023-12-24T00:00:00Z" "start"])].

Definition loads (s : string) : result json :=
  match dict_get documents s with
  | Some v => Ok v
  | None => Raise JSONDecodeError
  end.

Definition lib : Library := {|
  read_csv_text := read_csv;
  to_csv_text := to_csv;
  to_datetime_text := to_datetime;
  json_loads := loads;
  str_compound := fun _ => "";
  str_exn := fun _ => "";
  load_dotenv_env := fun _ env => env
|}.

Definition noon : datetime := mk_datetime 2024 1 15 12 0 0 0.
Definition old : datetime := mk_datetime 2023 12 1 8 0 0 0.

Definition csv_good : string :=
  "date,amount" +:+ nl +:+ "2023-12-20,1" +:+ nl +:+ "2023-12-25,2" +:+ nl
  +:+ "2024-01-02,3" +:+ nl.
Definition csv_bad : string := "day,amount" +:+ nl +:+ "2023-12-25,2" +:+ nl.

Definition disk : gmap string node :=
  list_to_map [
    ("in", Dir);
    ("in/good.csv", File csv_good old);
    ("in/bad.csv", File csv_bad old);
    ("in/more.csv", File csv_good old);
    ("spotify", Dir);
    ("spotify/Streaming_History_Audio_2023_0.json", File "A" old);
    ("spotify/Streaming_History_Audio_2023_1.json", File "B" old);
    ("spotify/notes.txt", File "" old);
    ("logs", Dir);
    ("logs/boundary.json", File "C" old);
    ("shots", Dir);
    ("out", Dir);
    ("out/spotify_journal_2023-12-24_to_2023-12-31.txt", File "kept" old)
  ].

Definition env : gmap string string :=
  list_to_map [("SPOTIFY_DATA_PATH", "spotify"); ("SCREENSHOTS_PATH", "shots");
               ("OUTPUT_PATH", "out")].

Definition w0 : world := mk_world disk env [] noon.

Definition journal : string := "out/spotify_journal_2023-12-24_to_2023-12-31.txt".

(** A batch of three whose second file is missing, and the world after
    its first triple. *)
Definition source_1 : string * string * string := ("in/good.csv", "date", "out/good.csv").
Definition source_2 : string * string * string := ("in/none.csv", "date", "out/none.csv").
Definition source_3 : string * string * string := ("in/more.csv", "date", "out/more.csv").

Definition kept_csv : string := "date,amount" +:+ nl +:+ "2023-12-25,2" +:+ nl.

Definition disk_1 : gmap string node := <["out/good.csv" := File kept_csv noon]> disk.

Definition w1 : world :=
  mk_world disk_1 env
    ["Processing file: in/good.csv"; "Filtered data saved to: out/good.csv"] noon.

(** A world without configuration. *)
Definition bare : world := mk_world disk ∅ [] noon.

(** An entry of a log without the [platform] member. *)
Definition entry_without_platform : json :=
  JDict [("ts", JStr "2023-12-25T10:00:00Z");
         ("ms_played", JInt 1000);
         ("master_metadata_track_name", JStr "first");
         ("master_metadata_album_artist_name", JStr "Artist");
         ("master_metadata_album_album_name", JStr "Album")].

Definition history_0 : string := "spotify/Streaming_History_Audio_2023_0.json".
Definition history_1 : string := "spotify/Streaming_History_Audio_2023_1.json".

Definition name_0 : string := "Streaming_History_Audio_2023_0.json".
Definition name_1 : string := "Streaming_History_Audio_2023_1.json".

(** What the range 2023-12-24 to 2023-12-31 keeps of [history_1]. *)
Definition kept_entries_1 : list json := [entry "2023-12-26T11:30:00Z" "second"].

(** What the range 2023-12-24 to 2023-12-31 keeps of [history_0] and of
    [csv_good]. *)
Definition kept_entries : list json := [entry "2023-12-25T10:00:00Z" "first"].
Definition kept_frame : DataFrame :=
  mk_frame ["date"; "amount"]
    [[CTime (Some (mk_datetime 2023 12 25 0 0 0 0)); CText "2"]].

End Demo.


(** The file path of a triple of a batch. *)
Definition source_path (source : string * string * string) : string :=
  fst (fst source).

(** A name as [os.listdir] gives it: not empty, without separator. *)
Definition is_plain_name (name : string) : bool :=
  negb (String.eqb name "") && negb (existsb is_sep (chars name)).

(** * More examples

    Files that are not what the program expects: a log with an entry
    without [ts], a log whose document is an object, a directory of
    screenshots with a file in the range, one outside, a sub-directory and
    a file whose place in the output is taken by a directory. *)

Module Edge.

Definition documents : list (string * json) :=
  [("E", JList [Demo.entry "2023-12-25T10:00:00Z" "first";
                JDict [("platform", JStr "ios")];
                Demo.entry "2023-12-26T11:30:00Z" "second"]);
   ("O", JDict [("ts", JStr "2023-12-25T10:00:00Z")]);
   ("N", JDict []);
   ("W", JList [Demo.entry "2023-12-20T09:00:00Z" "early";
                Demo.entry "2023-12-25T10:00:00Z" "first";
                Demo.entry "2023-12-31T18:00:00Z" "evening"])].

Definition loads (s : string) : result json :=
  match dict_get documents s with
  | Some v => Ok v
  | None => Raise JSONDecodeError
  end.

Definition show_exn (e : exn) : string :=
  match e with
  | KeyError k => "'" +:+ k +:+ "'"
  | IsADirectoryError => "Is a directory"
  | SameFileError => "are the same file"
  | _ => "error"
  end.

Definition lib : Library := {|
  read_csv_text := Demo.read_csv;
  to_csv_text := Demo.to_csv;
  to_datetime_text := Demo.to_datetime;
  json_loads := loads;
  str_compound := fun _ => "";
  str_exn := show_exn;
  load_dotenv_env := fun _ env => env
|}.

Definition in_december : datetime := mk_datetime 2023 12 25 10 0 0 0.
Definition in_february : datetime := mk_datetime 2024 2 1 9 30 0 0.

Definition disk : gmap string node :=
  list_to_map [
    ("in", Dir);
    ("in/good.csv", File Demo.csv_good Demo.old);
    ("in/bad.csv", File Demo.csv_bad Demo.old);
    ("logs", Dir);
    ("logs/missing_ts.json", File "E" Demo.old);
    ("logs/object.json", File "O" Demo.old);
    ("logs/empty_object.json", File "N" Demo.old);
    ("logs/week.json", File "W" Demo.old);
    ("shots", Dir);
    ("shots/a.png", File "picture a" in_december);
    ("shots/b.png", File "picture b" in_february);
    ("shots/c.png", File "picture c" in_december);
    ("shots/sub", Dir);
    ("out", Dir);
    ("out/screenshots", Dir);
    ("out/screenshots/c.png", Dir)
  ].

Definition env : gmap string string :=
  list_to_map [("SPOTIFY_DATA_PATH", "logs"); ("SCREENSHOTS_PATH", "shots");
               ("OUTPUT_PATH", "out")].

(** The Spotify path set to a regular file. *)
Definition env_file : gmap string string :=
  list_to_map [("SPOTIFY_DATA_PATH", "logs/week.json"); ("SCREENSHOTS_PATH", "shots");
               ("OUTPUT_PATH", "out")].

(** No Spotify path, the rest set. *)
Definition env_shots : gmap string string :=
  list_to_map [("SCREENSHOTS_PATH", "shots"); ("OUTPUT_PATH", "out")].

Definition w0 : world := mk_world disk env [] Demo.noon.
Definition w_file : world := mk_world disk env_file [] Demo.noon.
Definition w_shots : world := mk_world disk env_shots [] Demo.noon.

End Edge.

(** * Properties *)

(** ** The order on datetimes *)

Lemma lex_compare_refl (a : list Z) : lex_compare a a = Eq.
Proof.
  induction a as [|x a IH]; simpl; [reflexivity|].
  rewrite Z.compare_refl. exact IH.
Qed.

Lemma lex_compare_antisym (a b : list Z) :
  lex_compare b a = CompOpp (lex_compare a b).
Proof.
  revert b. induction a as [|x a IH]; intros [|y b]; simpl; try reflexivity.
  rewrite (Z.compare_antisym x y).
  destruct (Z.compare x y); simpl; auto.
Qed.

Lemma dt_leb_refl (t : datetime) : dt_leb t t = true.
Proof. unfold dt_leb, dt_compare. rewrite lex_compare_refl. reflexivity. Qed.

(** The order is total: what is not below lies strictly above. *)
Lemma dt_leb_false (a b : datetime) : dt_leb a b = false -> dt_ltb b a = true.
Proof.
  unfold dt_leb, dt_ltb, dt_compare.
  rewrite (lex_compare_antisym (dt_fields a) (dt_fields b)).
  destruct (lex_compare (dt_fields a) (dt_fields b)); simpl; congruence.
Qed.

Lemma dt_ltb_not_leb (a b : datetime) : dt_ltb b a = true -> dt_leb a b = false.
Proof.
  unfold dt_leb, dt_ltb, dt_compare.
  rewrite (lex_compare_antisym (dt_fields a) (dt_fields b)).
  destruct (lex_compare (dt_fields a) (dt_fields b)); simpl; congruence.
Qed.

Lemma in_range_spec (start end_ t : datetime) :
  in_range start end_ t = true <-> dt_leb start t = true /\ dt_leb t end_ = true.
Proof. unfold in_range. apply andb_true_iff. Qed.

Lemma out_of_range (start end_ t : datetime) :
  in_range start end_ t = false -> dt_ltb t start = true \/ dt_ltb end_ t = true.
Proof.
  unfold in_range. intros H. apply andb_false_iff in H as [H|H];
    [left|right]; apply dt_leb_false; exact H.
Qed.

(** ** Results *)

Lemma bind_Ok {A B} (r : result A) (k : A -> result B) (b : B) :
  r ≫= k = Ok b -> exists a, r = Ok a /\ k a = Ok b.
Proof. destruct r as [a|e]; simpl; [eauto|discriminate]. Qed.

Tactic Notation "inv_bind" hyp(H) "as" ident(a) ident(Ha) :=
  apply bind_Ok in H as (a & Ha & H).

(** ** The list filters underneath *)

Lemma sublist_list_filter {A} (p : A -> bool) (l : list A) :
  sublist (List.filter p l) l.
Proof.
  induction l as [|x l IH]; simpl; [constructor|].
  destruct (p x); [apply sublist_skip|apply sublist_cons]; exact IH.
Qed.

Lemma list_filter_idem {A} (p : A -> bool) (l : list A) :
  List.filter p (List.filter p l) = List.filter p l.
Proof.
  induction l as [|x l IH]; simpl; [reflexivity|].
  destruct (p x) eqn:E; simpl; rewrite ?E, IH; reflexivity.
Qed.

Lemma elem_of_list_filter_bool {A} (p : A -> bool) (l : list A) (x : A) :
  x ∈ List.filter p l <-> x ∈ l /\ p x = true.
Proof. rewrite !list_elem_of_In. apply filter_In. Qed.

Lemma keeps_ts (start end_ : datetime) (e : json) (t : datetime) :
  entry_ts e = Ok t -> keeps start end_ e = in_range start end_ t.
Proof. unfold keeps. intros ->. reflexivity. Qed.

Lemma filter_entries_Ok (start end_ : datetime) (data out : list json) :
  filter_entries start end_ data = Ok out ->
  Forall (fun e => exists t, entry_ts e = Ok t) data
  /\ out = List.filter (keeps start end_) data.
Proof.
  revert out. induction data as [|e data IH]; simpl; intros out H.
  - injection H as <-. split; [constructor|reflexivity].
  - inv_bind H as t Ht. inv_bind H as kept Hk. injection H as <-.
    destruct (IH _ Hk) as [Hall ->]. split.
    + constructor; [eauto|exact Hall].
    + simpl. rewrite (keeps_ts start end_ e t Ht). reflexivity.
Qed.

Lemma filter_entries_total (start end_ : datetime) (data : list json) :
  Forall (fun e => exists t, entry_ts e = Ok t) data ->
  filter_entries start end_ data = Ok (List.filter (keeps start end_) data).
Proof.
  induction 1 as [|e data [t Ht] _ IH]; simpl; [reflexivity|].
  rewrite Ht. simpl. rewrite IH. simpl.
  rewrite (keeps_ts start end_ e t Ht). reflexivity.
Qed.

Lemma map_result_Ok {A B} (f : A -> result B) (l : list A) (l' : list B) :
  map_result f l = Ok l' -> Forall2 (fun x y => f x = Ok y) l l'.
Proof.
  revert l'. induction l as [|x l IH]; simpl; intros l' H.
  - injection H as <-. constructor.
  - inv_bind H as y Hy. inv_bind H as ys Hys. injection H as <-.
    constructor; auto.
Qed.

Lemma map_result_fixed {A} (f : A -> result A) (l : list A) :
  Forall (fun x => f x = Ok x) l -> map_result f l = Ok l.
Proof.
  induction 1 as [|x l Hx _ IH]; simpl; [reflexivity|].
  rewrite Hx. simpl. rewrite IH. reflexivity.
Qed.

Lemma get_set_cell (i : nat) (v : cell) (row : list cell) :
  get_cell i (set_cell i v row) = v.
Proof.
  unfold get_cell. revert row. induction i as [|i IH]; intros [|c row]; simpl; auto.
Qed.

Lemma set_set_cell (i : nat) (v : cell) (row : list cell) :
  set_cell i v (set_cell i v row) = set_cell i v row.
Proof.
  revert row. induction i as [|i IH]; intros [|c row]; simpl; f_equal; auto.
Qed.

(** A row of a converted column is converted to itself. *)
Lemma convert_row_converted (lib : Library) (i : nat) (row row' : list cell) :
  convert_row lib i row = Ok row' -> convert_row lib i row' = Ok row'.
Proof.
  unfold convert_row. intros H. inv_bind H as t Ht. injection H as <-.
  rewrite get_set_cell. simpl. rewrite set_set_cell. reflexivity.
Qed.

Lemma row_in_range_ts (i : nat) (start end_ : datetime) (row : list cell) :
  row_in_range i start end_ row =
  match row_ts i row with Some t => in_range start end_ t | None => false end.
Proof.
  unfold row_in_range, row_ts. destruct (get_cell i row) as [| |[t|]]; reflexivity.
Qed.

(** What [filter_frame] returns, when it returns. *)
Lemma filter_frame_Ok (lib : Library) (data out : DataFrame)
  (start_date end_date date_column : string) :
  filter_frame lib data start_date end_date date_column = Ok out ->
  exists i converted start end_,
    column_index date_column (columns data) = Some i
    /\ map_result (convert_row lib i) (rows data) = Ok converted
    /\ strptime_date start_date = Ok start
    /\ strptime_date end_date = Ok end_
    /\ out = mk_frame (columns data) (List.filter (row_in_range i start end_) converted).
Proof.
  unfold filter_frame. intros H.
  destruct (column_index date_column (columns data)) as [i|]; [|discriminate].
  inv_bind H as converted Hc. inv_bind H as start Hs. inv_bind H as end_ He.
  injection H as <-. exists i, converted, start, end_. auto.
Qed.

Lemma list_filter_partitions {A} (ts : A -> option datetime) (start end_ : datetime)
  (p : A -> bool) (input : list A) :
  (forall x, p x = match ts x with Some t => in_range start end_ t | None => false end) ->
  partitions ts start end_ input (List.filter p input).
Proof.
  intros Hp. repeat split.
  - intros x Hx. apply elem_of_list_filter_bool in Hx. tauto.
  - intros x Hx. apply elem_of_list_filter_bool in Hx as [_ Hx].
    rewrite Hp in Hx. destruct (ts x) as [t|]; [|discriminate].
    exists t. apply in_range_spec in Hx. tauto.
  - intros x t Hin Ht Hout. apply out_of_range.
    destruct (in_range start end_ t) eqn:E; [|reflexivity].
    exfalso. apply Hout. apply elem_of_list_filter_bool. split; [exact Hin|].
    rewrite Hp, Ht. exact E.
  - intros x t Hin Ht Hse Hb. apply elem_of_list_filter_bool. split; [exact Hin|].
    rewrite Hp, Ht. apply in_range_spec.
    destruct Hb as [-> | ->]; split; auto using dt_leb_refl.
Qed.

Lemma convert_row_from (lib : Library) (i : nat) (row row' : list cell) :
  convert_row lib i row = Ok row' -> converted_from lib i row row'.
Proof.
  unfold convert_row. intros H. inv_bind H as t Ht. injection H as <-.
  exists t. auto.
Qed.

Lemma map_result_total {A B} (f : A -> result B) (l : list A) (l' : list B) :
  Forall2 (fun x y => f x = Ok y) l l' -> map_result f l = Ok l'.
Proof.
  induction 1 as [|x y l l' Hx _ IH]; simpl; [reflexivity|].
  rewrite Hx. simpl. rewrite IH. reflexivity.
Qed.

(** The filters return whenever their input is well formed: the dates
    parse, the file reads, and every record has a timestamp. *)
Lemma filter_spotify_data_returns (lib : Library) (f : gmap string node)
  (file_path start_date end_date : string) (start end_ : datetime)
  (entries : list json) :
  strptime_date start_date = Ok start ->
  strptime_date end_date = Ok end_ ->
  read_entries lib f file_path = Ok entries ->
  Forall (fun e => is_Some (entry_time e)) entries ->
  filter_spotify_data lib f file_path start_date end_date
  = Ok (List.filter (keeps start end_) entries).
Proof.
  intros Hs He Hr Hall. unfold read_entries in Hr.
  inv_bind Hr as content Hc. inv_bind Hr as data Hd.
  unfold filter_spotify_data. rewrite Hs. simpl. rewrite He. simpl.
  rewrite Hc. simpl. rewrite Hd. simpl. rewrite Hr. simpl.
  apply filter_entries_total. eapply Forall_impl; [exact Hall|].
  intros e [t Ht]. unfold entry_time in Ht.
  destruct (entry_ts e) as [t'|]; [eauto|discriminate].
Qed.

Lemma filter_data_by_date_returns (lib : Library) (f : gmap string node)
  (file_path start_date end_date date_column : string) (start end_ : datetime)
  (data : DataFrame) (i : nat) (converted : list (list cell)) :
  strptime_date start_date = Ok start ->
  strptime_date end_date = Ok end_ ->
  read_frame lib f file_path = Ok data ->
  column_index date_column (columns data) = Some i ->
  Forall2 (fun row row' => convert_row lib i row = Ok row') (rows data) converted ->
  filter_data_by_date lib f file_path start_date end_date date_column
  = Ok (mk_frame (columns data) (List.filter (row_in_range i start end_) converted)).
Proof.
  intros Hs He Hr Hi Hc. unfold read_frame in Hr. inv_bind Hr as content Hf.
  unfold filter_data_by_date. rewrite Hf. simpl. rewrite Hr. simpl.
  unfold filter_frame. rewrite Hi, (map_result_total _ _ _ Hc). simpl.
  rewrite Hs. simpl. rewrite He. reflexivity.
Qed.

(** C5. For log entries and for tabular rows, what a filter returns is
    part of its input; every record it keeps has its timestamp within
    [start, end], both ends included; every record it leaves out has its
    timestamp strictly outside; a record on a boundary is kept. *)
Theorem filter_exhaustive_partition (lib : Library) (f : gmap string node)
  (start_date end_date : string)
  (file_path : string) (filtered : list json)
  (csv_path date_column : string) (frame : DataFrame) :
  (filter_spotify_data lib f file_path start_date end_date = Ok filtered ->
   exists start end_ entries,
     strptime_date start_date = Ok start
     /\ strptime_date end_date = Ok end_
     /\ read_entries lib f file_path = Ok entries
     /\ Forall (fun e => is_Some (entry_time e)) entries
     /\ partitions entry_time start end_ entries filtered)
  /\
  (filter_data_by_date lib f csv_path start_date end_date date_column = Ok frame ->
   exists start end_ data i converted,
     strptime_date start_date = Ok start
     /\ strptime_date end_date = Ok end_
     /\ read_frame lib f csv_path = Ok data
     /\ column_index date_column (columns data) = Some i
     /\ Forall2 (converted_from lib i) (rows data) converted
     /\ columns frame = columns data
     /\ partitions (row_ts i) start end_ converted (rows frame)).
Proof.
  split; intros H.
  - unfold filter_spotify_data in H.
    inv_bind H as start Hs. inv_bind H as end_ He. inv_bind H as content Hc.
    inv_bind H as data Hd. inv_bind H as entries Hi.
    apply filter_entries_Ok in H as [Hall ->].
    exists start, end_, entries.
    split; [exact Hs|]. split; [exact He|]. split; [|split].
    + unfold read_entries. rewrite Hc. simpl. rewrite Hd. exact Hi.
    + eapply Forall_impl; [exact Hall|]. intros e [t Ht].
      unfold entry_time. rewrite Ht. eauto.
    + apply list_filter_partitions. intros e.
      unfold keeps, entry_time. destruct (entry_ts e); reflexivity.
  - unfold filter_data_by_date in H.
    inv_bind H as content Hc. inv_bind H as data Hd.
    apply filter_frame_Ok in H as (i & converted & start & end_ & Hi & Hm & Hs & He & ->).
    exists start, end_, data, i, converted.
    split; [exact Hs|]. split; [exact He|]. split; [|split; [exact Hi|split; [|split]]].
    + unfold read_frame. rewrite Hc. exact Hd.
    + apply map_result_Ok in Hm. eapply Forall2_impl; [exact Hm|].
      intros row row'. apply convert_row_from.
    + reflexivity.
    + apply list_filter_partitions. apply row_in_range_ts.
Qed.

Lemma filter_exhaustive_partition_witness :
  (filter_spotify_data Demo.lib Demo.disk Demo.history_0 "2023-12-24" "2023-12-31"
     = Ok Demo.kept_entries
   /\ exists start end_ entries,
        strptime_date "2023-12-24" = Ok start
        /\ strptime_date "2023-12-31" = Ok end_
        /\ read_entries Demo.lib Demo.disk Demo.history_0 = Ok entries
        /\ Forall (fun e => is_Some (entry_time e)) entries
        /\ partitions entry_time start end_ entries Demo.kept_entries)
  /\
  (filter_data_by_date Demo.lib Demo.disk "in/good.csv" "2023-12-24" "2023-12-31" "date"
     = Ok Demo.kept_frame
   /\ exists start end_ data i converted,
        strptime_date "2023-12-24" = Ok start
        /\ strptime_date "2023-12-31" = Ok end_
        /\ read_frame Demo.lib Demo.disk "in/good.csv" = Ok data
        /\ column_index "date" (columns data) = Some i
        /\ Forall2 (converted_from Demo.lib i) (rows data) converted
        /\ columns Demo.kept_frame = columns data
        /\ partitions (row_ts i) start end_ converted (rows Demo.kept_frame)).
Proof.
  destruct (filter_exhaustive_partition Demo.lib Demo.disk "2023-12-24" "2023-12-31"
              Demo.history_0 Demo.kept_entries "in/good.csv" "date" Demo.kept_frame)
    as [Hlog Htab].
  split; (split; [vm_compute; reflexivity|]).
  - apply Hlog. vm_compute. reflexivity.
  - apply Htab. vm_compute. reflexivity.
Defined.



Lemma Forall_list_filter {A} (P : A -> Prop) (p : A -> bool) (l : list A) :
  Forall P l -> Forall P (List.filter p l).
Proof.
  induction 1 as [|x l Hx _ IH]; simpl; [constructor|].
  destruct (p x); [constructor|]; assumption.
Qed.

Lemma filter_entries_idem (start end_ : datetime) (data out : list json) :
  filter_entries start end_ data = Ok out ->
  filter_entries start end_ out = Ok out.
Proof.
  intros H. apply filter_entries_Ok in H as [Hall ->].
  rewrite filter_entries_total by (apply Forall_list_filter; exact Hall).
  rewrite list_filter_idem. reflexivity.
Qed.

Lemma filter_frame_idem (lib : Library) (data out : DataFrame)
  (start_date end_date date_column : string) :
  filter_frame lib data start_date end_date date_column = Ok out ->
  filter_frame lib out start_date end_date date_column = Ok out.
Proof.
  intros H.
  apply filter_frame_Ok in H as (i & converted & start & end_ & Hi & Hm & Hs & He & ->).
  unfold filter_frame. simpl. rewrite Hi.
  rewrite map_result_fixed.
  - simpl. rewrite Hs. simpl. rewrite He. simpl. rewrite list_filter_idem. reflexivity.
  - apply Forall_list_filter. apply map_result_Ok in Hm.
    induction Hm as [|row row' rs rs' Hrow _ IH]; constructor; [|exact IH].
    apply (convert_row_converted lib i row row' Hrow).
Qed.

(** C8. Filtering what a filter returned, with the same range, returns it
    unchanged: for the log filter on its list of entries and on any file
    that holds them, for the tabular filter on its frame and on any file
    that reads as it. *)
Theorem filter_idempotent (lib : Library) (f : gmap string node)
  (start_date end_date : string)
  (file_path : string) (filtered : list json)
  (csv_path date_column : string) (frame : DataFrame) :
  (filter_spotify_data lib f file_path start_date end_date = Ok filtered ->
   (exists start end_,
      strptime_date start_date = Ok start
      /\ strptime_date end_date = Ok end_
      /\ filter_entries start end_ filtered = Ok filtered)
   /\ forall f' file_path',
        read_entries lib f' file_path' = Ok filtered ->
        filter_spotify_data lib f' file_path' start_date end_date = Ok filtered)
  /\
  (filter_data_by_date lib f csv_path start_date end_date date_column = Ok frame ->
   filter_frame lib frame start_date end_date date_column = Ok frame
   /\ forall f' csv_path',
        read_frame lib f' csv_path' = Ok frame ->
        filter_data_by_date lib f' csv_path' start_date end_date date_column = Ok frame).
Proof.
  split; intros H.
  - unfold filter_spotify_data in H.
    inv_bind H as start Hs. inv_bind H as end_ He. inv_bind H as content Hc.
    inv_bind H as data Hd. inv_bind H as entries Hi.
    apply filter_entries_idem in H. split.
    + exists start, end_. auto.
    + intros f' file_path' Hr. unfold read_entries in Hr.
      inv_bind Hr as content' Hc'. inv_bind Hr as data' Hd'.
      unfold filter_spotify_data. rewrite Hs. simpl. rewrite He. simpl.
      rewrite Hc'. simpl. rewrite Hd'. simpl. rewrite Hr. simpl. exact H.
  - unfold filter_data_by_date in H.
    inv_bind H as content Hc. inv_bind H as data Hd.
    apply filter_frame_idem in H. split; [exact H|].
    intros f' csv_path' Hr. unfold read_frame in Hr. inv_bind Hr as content' Hc'.
    unfold filter_data_by_date. rewrite Hc'. simpl. rewrite Hr. simpl. exact H.
Qed.

Lemma filter_idempotent_witness :
  (filter_spotify_data Demo.lib Demo.disk Demo.history_0 "2023-12-24" "2023-12-31"
     = Ok Demo.kept_entries
   /\ (exists start end_,
         strptime_date "2023-12-24" = Ok start
         /\ strptime_date "2023-12-31" = Ok end_
         /\ filter_entries start end_ Demo.kept_entries = Ok Demo.kept_entries)
   /\ forall f' file_path',
        read_entries Demo.lib f' file_path' = Ok Demo.kept_entries ->
        filter_spotify_data Demo.lib f' file_path' "2023-12-24" "2023-12-31"
          = Ok Demo.kept_entries)
  /\
  (filter_data_by_date Demo.lib Demo.disk "in/good.csv" "2023-12-24" "2023-12-31" "date"
     = Ok Demo.kept_frame
   /\ filter_frame Demo.lib Demo.kept_frame "2023-12-24" "2023-12-31" "date"
        = Ok Demo.kept_frame
   /\ forall f' csv_path',
        read_frame Demo.lib f' csv_path' = Ok Demo.kept_frame ->
        filter_data_by_date Demo.lib f' csv_path' "2023-12-24" "2023-12-31" "date"
          = Ok Demo.kept_frame).
Proof.
  destruct (filter_idempotent Demo.lib Demo.disk "2023-12-24" "2023-12-31"
              Demo.history_0 Demo.kept_entries "in/good.csv" "date" Demo.kept_frame)
    as [Hlog Htab].
  split; (split; [vm_compute; reflexivity|]).
  - apply Hlog. vm_compute. reflexivity.
  - apply Htab. vm_compute. reflexivity.
Defined.

(** ** Strings *)

Lemma append_assoc (a b c : string) : (a +:+ b) +:+ c = a +:+ (b +:+ c).
Proof.
  induction a as [|x a IH]; [reflexivity|].
  exact (f_equal (String x) IH).
Qed.

Lemma append_empty_r (a : string) : a +:+ "" = a.
Proof.
  induction a as [|x a IH]; [reflexivity|].
  exact (f_equal (String x) IH).
Qed.

Lemma chars_append (a b : string) : chars (a +:+ b) = (chars a ++ chars b)%list.
Proof.
  induction a as [|x a IH]; [reflexivity|].
  exact (f_equal (cons x) IH).
Qed.

(** ** Worlds *)

Lemma with_fs_same (w : world) : with_fs w (fs w) = w.
Proof. destruct w; reflexivity. Qed.

Lemma with_fs_twice (w : world) (f g : gmap string node) :
  with_fs (with_fs w f) g = with_fs w g.
Proof. reflexivity. Qed.

(** ** The journal exporter *)

Section Exporter.

Context (lib : Library).

Lemma journal_entry_complete (entry : json) :
  has_journal_fields entry -> journal_entry lib entry = Ok (record_of lib entry).
Proof.
  intros (members & -> & Hall). unfold journal_fields in Hall.
  repeat match goal with
         | H : Forall _ (_ :: _) |- _ => apply Forall_cons in H as [[? ?] H]
         end.
  unfold journal_entry, record_of, field_text, getitem.
  repeat match goal with
         | H : dict_get members _ = Some _ |- _ => rewrite H; clear H
         end.
  reflexivity.
Qed.

Ltac in_fields := unfold journal_fields; apply list_elem_of_In; simpl; tauto.

Lemma journal_entry_missing (members : list (string * json)) (key : string) :
  key ∈ journal_fields -> dict_get members key = None ->
  exists k, k ∈ journal_fields /\ dict_get members k = None
            /\ journal_entry lib (JDict members) = Raise (KeyError k).
Proof.
  intros Hkey Hnone. unfold journal_entry, getitem.
  destruct (dict_get members "ts") eqn:E1;
    [|exists "ts"; repeat split; [in_fields|assumption]].
  destruct (dict_get members "master_metadata_track_name") eqn:E2;
    [|exists "master_metadata_track_name"; repeat split;
      [in_fields|assumption]].
  destruct (dict_get members "master_metadata_album_artist_name") eqn:E3;
    [|exists "master_metadata_album_artist_name"; repeat split;
      [in_fields|assumption]].
  destruct (dict_get members "master_metadata_album_album_name") eqn:E4;
    [|exists "master_metadata_album_album_name"; repeat split;
      [in_fields|assumption]].
  destruct (dict_get members "platform") eqn:E5;
    [|exists "platform"; repeat split; [in_fields|assumption]].
  destruct (dict_get members "ms_played") eqn:E6;
    [|exists "ms_played"; repeat split; [in_fields|assumption]].
  exfalso. unfold journal_fields in Hkey.
  repeat (apply elem_of_cons in Hkey as [-> | Hkey]; [congruence|]).
  inversion Hkey.
Qed.

Lemma render_complete (data : list json) :
  Forall has_journal_fields data ->
  render lib data = (concat_all (map (record_of lib) data), Ok tt).
Proof.
  induction 1 as [|e data He _ IH]; simpl; [reflexivity|].
  rewrite (journal_entry_complete e He), IH. reflexivity.
Qed.

Lemma render_raises (pre post : list json) (entry : json) (e : exn) :
  Forall has_journal_fields pre ->
  journal_entry lib entry = Raise e ->
  render lib (pre ++ entry :: post) = (concat_all (map (record_of lib) pre), Raise e).
Proof.
  intros Hpre He. induction Hpre as [|x pre Hx _ IH]; simpl.
  - rewrite He. reflexivity.
  - rewrite (journal_entry_complete x Hx), IH. reflexivity.
Qed.

(** The loop of lines 95-105 on a file just opened at [p]. *)
Lemma write_loop (p : string) (data : list json) (w : world) (c : string) :
  fs w !! p = Some (File c (clock w)) ->
  for_each data (fun entry =>
    let* record := lift (journal_entry lib entry) in write p record) w
  = (with_fs w (<[p := File (c +:+ fst (render lib data)) (clock w)]> (fs w)),
     snd (render lib data)).
Proof.
  revert w c. induction data as [|e data IH]; intros w c Hp; simpl.
  - unfold ret. rewrite append_empty_r, (insert_id _ _ _ Hp), with_fs_same. reflexivity.
  - unfold bind at 1. unfold bind at 1. unfold lift.
    destruct (journal_entry lib e) as [record|err]; simpl.
    + unfold write at 1. unfold append_file. rewrite Hp.
      rewrite (IH _ (c +:+ record)) by (simpl; apply lookup_insert_eq).
      simpl. rewrite insert_insert_eq, append_assoc. reflexivity.
    + rewrite append_empty_r, (insert_id _ _ _ Hp), with_fs_same. reflexivity.
Qed.

(** The exporter, once the directory is made and the file opened. *)
Lemma save_spec (w : world) (data : list json)
  (output_dir start_date end_date : string) (f1 f2 : gmap string node) :
  os_makedirs output_dir (fs w) = Ok f1 ->
  open_w (clock w) (journal_path output_dir start_date end_date) f1 = Ok f2 ->
  save_spotify_data_for_journaling lib data output_dir start_date end_date w
  = let path := journal_path output_dir start_date end_date in
    let after := with_fs w (<[path := File (fst (render lib data)) (clock w)]> f1) in
    match snd (render lib data) with
    | Ok _ => (with_line after ("Journal-ready Spotify data saved to: " +:+ path), Ok tt)
    | Raise e => (after, Raise e)
    end.
Proof.
  intros Hm Ho. unfold save_spotify_data_for_journaling.
  fold (journal_path output_dir start_date end_date).
  set (path := journal_path output_dir start_date end_date) in *.
  unfold bind at 1. unfold makedirs, fs_update. rewrite Hm.
  unfold bind at 1. unfold open_write, fs_update. simpl. rewrite Ho.
  unfold bind at 1.
  assert (Hf2 : f2 = <[path := File "" (clock w)]> f1).
  { unfold open_w in Ho.
    destruct (is_dir f1 path || String.eqb (os_path_basename path) ""); [discriminate|].
    destruct (parent_ok f1 path); [|discriminate]. congruence. }
  rewrite with_fs_twice.
  rewrite (write_loop path data (with_fs w f2) "")
    by (simpl; rewrite Hf2; apply lookup_insert_eq).
  simpl. rewrite Hf2, insert_insert_eq.
  destruct (snd (render lib data)) as [[]|e]; reflexivity.
Qed.

Lemma save_makedirs_raises (w : world) (data : list json)
  (output_dir start_date end_date : string) (e : exn) :
  os_makedirs output_dir (fs w) = Raise e ->
  save_spotify_data_for_journaling lib data output_dir start_date end_date w
  = (w, Raise e).
Proof.
  intros Hm. unfold save_spotify_data_for_journaling.
  unfold bind at 1. unfold makedirs, fs_update. rewrite Hm. reflexivity.
Qed.

Lemma save_open_raises (w : world) (data : list json)
  (output_dir start_date end_date : string) (f1 : gmap string node) (e : exn) :
  os_makedirs output_dir (fs w) = Ok f1 ->
  open_w (clock w) (journal_path output_dir start_date end_date) f1 = Raise e ->
  save_spotify_data_for_journaling lib data output_dir start_date end_date w
  = (with_fs w f1, Raise e).
Proof.
  intros Hm Ho. unfold save_spotify_data_for_journaling.
  fold (journal_path output_dir start_date end_date).
  unfold bind at 1. unfold makedirs, fs_update. rewrite Hm.
  unfold bind at 1. unfold open_write, fs_update. simpl. rewrite Ho. reflexivity.
Qed.

End Exporter.

(** ** os.makedirs *)

Lemma add_dir_keeps (f : gmap string node) (p q : string) (n : node) :
  f !! q = Some n -> add_dir f p !! q = Some n.
Proof.
  intros Hq. unfold add_dir. destruct (f !! p) eqn:Hp; [exact Hq|].
  rewrite lookup_insert_ne; [exact Hq|]. intros ->. congruence.
Qed.

Lemma add_dir_new (f : gmap string node) (p q : string) (n : node) :
  add_dir f p !! q = Some n -> f !! q = Some n \/ n = Dir.
Proof.
  unfold add_dir. destruct (f !! p) eqn:Hp; [auto|].
  destruct (decide (p = q)) as [->|Hne].
  - rewrite lookup_insert_eq. intros [= <-]. auto.
  - rewrite lookup_insert_ne by exact Hne. auto.
Qed.

Lemma add_dirs_keeps (l : list string) (f : gmap string node) (q : string) (n : node) :
  f !! q = Some n -> foldl add_dir f l !! q = Some n.
Proof.
  revert f. induction l as [|p l IH]; intros f Hq; simpl; [exact Hq|].
  apply IH, add_dir_keeps, Hq.
Qed.

Lemma add_dirs_new (l : list string) (f : gmap string node) (q : string) (n : node) :
  foldl add_dir f l !! q = Some n -> f !! q = Some n \/ n = Dir.
Proof.
  revert f. induction l as [|p l IH]; intros f Hq; simpl in Hq; [auto|].
  apply IH in Hq as [Hq|Hq]; [|auto]. apply add_dir_new in Hq. exact Hq.
Qed.

(** [os.makedirs] leaves [p] a directory, keeps every node there was, and
    adds nothing but directories. *)
Lemma os_makedirs_Ok (p : string) (f f1 : gmap string node) :
  os_makedirs p f = Ok f1 ->
  f1 !! p = Some Dir
  /\ (forall q n, f !! q = Some n -> f1 !! q = Some n)
  /\ (forall q n, f1 !! q = Some n -> f !! q = Some n \/ n = Dir).
Proof.
  unfold os_makedirs. destruct (String.eqb p ""); [discriminate|].
  destruct (is_file f p) eqn:Hfile; [discriminate|].
  destruct (existsb (is_file f) (ancestors p)); [discriminate|].
  intros [= <-]. split; [|split].
  - unfold add_dir at 1.
    destruct (foldl add_dir f (ancestors p) !! p) as [n|] eqn:Hp;
      [|apply lookup_insert_eq].
    rewrite Hp. apply add_dirs_new in Hp as [Hp| ->]; [|reflexivity].
    unfold is_file in Hfile. rewrite Hp in Hfile. destruct n; [reflexivity|discriminate].
  - intros q n Hq. apply add_dir_keeps, add_dirs_keeps, Hq.
  - intros q n Hq. apply add_dir_new in Hq as [Hq|Hq]; [|auto].
    apply add_dirs_new in Hq. exact Hq.
Qed.

Lemma open_w_Ok (now : datetime) (p : string) (f f2 : gmap string node) :
  open_w now p f = Ok f2 ->
  f2 = <[p := File "" now]> f /\ is_dir f p = false.
Proof.
  unfold open_w. destruct (is_dir f p); simpl; [discriminate|].
  destruct (String.eqb (os_path_basename p) ""); [discriminate|].
  destruct (parent_ok f p); [|discriminate]. intros [= <-]. auto.
Qed.






(** ** The boundary scenario *)

Lemma entry_ts_of (entry : json) (s : string) :
  getitem entry "ts" = Ok (JStr s) -> entry_ts entry = strptime_ts s.
Proof. unfold entry_ts. intros ->. reflexivity. Qed.

(** C4, as the code has it. With the end of the range read as
    2023-12-31T00:00:00, the log filter keeps the entry stamped
    2023-12-24T00:00:00Z, which lies on the start of the range, and leaves
    out the one stamped 2023-12-31T23:59:59Z. *)
Theorem boundary_scenario (lib : Library) (f : gmap string node)
  (file_path content : string) (first last : json) :
  read_file f file_path = Ok content ->
  json_loads lib content = Ok (JList [first; last]) ->
  getitem first "ts" = Ok (JStr "2023-12-24T00:00:00Z") ->
  getitem last "ts" = Ok (JStr "2023-12-31T23:59:59Z") ->
  strptime_date "2023-12-31" = Ok dec_31
  /\ filter_spotify_data lib f file_path "2023-12-24" "2023-12-31" = Ok [first].
Proof.
  intros Hr Hj H1 H2. split; [vm_compute; reflexivity|].
  unfold filter_spotify_data.
  replace (strptime_date "2023-12-24") with (Ok dec_24) by (vm_compute; reflexivity).
  replace (strptime_date "2023-12-31") with (Ok dec_31) by (vm_compute; reflexivity).
  simpl. rewrite Hr. simpl. rewrite Hj. simpl.
  rewrite (entry_ts_of first _ H1), (entry_ts_of last _ H2).
  replace (strptime_ts "2023-12-24T00:00:00Z") with (Ok dec_24)
    by (vm_compute; reflexivity).
  replace (strptime_ts "2023-12-31T23:59:59Z") with (Ok dec_31_last_second)
    by (vm_compute; reflexivity).
  reflexivity.
Qed.

Lemma boundary_scenario_witness :
  read_file Demo.disk "logs/boundary.json" = Ok "C"
  /\ json_loads Demo.lib "C"
     = Ok (JList [Demo.entry "2023-12-24T00:00:00Z" "start";
                  Demo.entry "2023-12-31T23:59:59Z" "end"])
  /\ strptime_date "2023-12-31" = Ok dec_31
  /\ filter_spotify_data Demo.lib Demo.disk "logs/boundary.json"
       "2023-12-24" "2023-12-31"
     = Ok [Demo.entry "2023-12-24T00:00:00Z" "start"].
Proof.
  split; [vm_compute; reflexivity|]. split; [vm_compute; reflexivity|].
  apply (boundary_scenario Demo.lib Demo.disk "logs/boundary.json" "C"
           (Demo.entry "2023-12-24T00:00:00Z" "start")
           (Demo.entry "2023-12-31T23:59:59Z" "end"));
    vm_compute; reflexivity.
Defined.

(** C4 as stated fails: of the two entries the filter keeps the first. *)
Lemma boundary_scenario_keeps_start :
  strptime_date "2023-12-31" = Ok dec_31
  /\ filter_spotify_data Demo.lib Demo.disk "logs/boundary.json"
       "2023-12-24" "2023-12-31"
     = Ok [Demo.entry "2023-12-24T00:00:00Z" "start"]
  /\ filter_spotify_data Demo.lib Demo.disk "logs/boundary.json"
       "2023-12-24" "2023-12-31"
     <> Ok [].
Proof.
  split; [vm_compute; reflexivity|]. split; [vm_compute; reflexivity|].
  vm_compute. discriminate.
Qed.

(** ** Loops *)

Lemma for_each_app {A} (l1 l2 : list A) (body : A -> M unit) (w : world) :
  for_each (l1 ++ l2) body w
  = match for_each l1 body w with
    | (w1, Ok _) => for_each l2 body w1
    | (w1, Raise e) => (w1, Raise e)
    end.
Proof.
  revert w. induction l1 as [|x l1 IH]; intros w; simpl; [reflexivity|].
  unfold bind. destruct (body x w) as [w' [[]|e]]; [apply IH|reflexivity].
Qed.

Lemma for_each_cons {A} (x : A) (rest : list A) (body : A -> M unit) (w : world) :
  for_each (x :: rest) body w
  = match body x w with
    | (w', Ok _) => for_each rest body w'
    | (w', Raise e) => (w', Raise e)
    end.
Proof. reflexivity. Qed.

Lemma for_each_raises {A} (x : A) (rest : list A) (body : A -> M unit)
  (w w' : world) (e : exn) :
  body x w = (w', Raise e) -> for_each (x :: rest) body w = (w', Raise e).
Proof. intros H. simpl. unfold bind. rewrite H. reflexivity. Qed.

(** ** The batch step *)

Section Batch.

Context (lib : Library) (start_date end_date : string).

Lemma process_source_missing (file_path date_column output_path : string) (w : world) :
  os_path_exists (fs w) file_path = false ->
  process_source lib start_date end_date (file_path, date_column, output_path) w
  = (with_line w ("File not found: " +:+ file_path), Ok tt).
Proof.
  intros H. unfold process_source, bind, get_world. rewrite H. reflexivity.
Qed.

Lemma process_source_Ok (file_path date_column output_path : string) (w : world)
  (filtered : DataFrame) (opened : gmap string node) :
  os_path_exists (fs w) file_path = true ->
  filter_data_by_date lib (fs w) file_path start_date end_date date_column = Ok filtered ->
  open_w (clock w) output_path (fs w) = Ok opened ->
  process_source lib start_date end_date (file_path, date_column, output_path) w
  = (mk_world (<[output_path := File (to_csv_text lib filtered) (clock w)]> (fs w))
       (environ w)
       (stdout w ++ ["Processing file: " +:+ file_path;
                     "Filtered data saved to: " +:+ output_path])
       (clock w),
     Ok tt).
Proof.
  intros He Hf Ho. unfold process_source, bind, get_world. rewrite He. simpl.
  unfold fs_read. simpl. rewrite Hf.
  unfold open_write, fs_update. simpl. rewrite Ho.
  apply open_w_Ok in Ho as [-> _].
  unfold write, append_file, print, with_line, with_fs. simpl.
  rewrite lookup_insert_eq, insert_insert_eq, <- app_assoc. reflexivity.
Qed.

Lemma process_source_raises (file_path date_column output_path : string) (w : world)
  (e : exn) :
  os_path_exists (fs w) file_path = true ->
  filter_data_by_date lib (fs w) file_path start_date end_date date_column = Raise e ->
  process_source lib start_date end_date (file_path, date_column, output_path) w
  = (with_line w ("Processing file: " +:+ file_path), Raise e).
Proof.
  intros He Hf. unfold process_source, bind, get_world. rewrite He. simpl.
  unfold fs_read. simpl. rewrite Hf. reflexivity.
Qed.

End Batch.

(** C6. A triple whose file is not there is skipped with a notice and
    nothing is written for it; the triples after it are processed as they
    would be without it.  In a batch of three whose second file is missing,
    the first and the third are filtered and written. *)
Theorem missing_source_skipped (lib : Library) (start_date end_date : string)
  (pre post : list (string * string * string))
  (file_path date_column output_path : string) (w w1 : world)
  (path1 column1 output1 path3 column3 output3 : string)
  (filtered1 filtered3 : DataFrame) (opened1 opened3 : gmap string node) :
  (process_data_sources lib pre start_date end_date w = (w1, Ok tt) ->
   os_path_exists (fs w1) file_path = false ->
   process_source lib start_date end_date (file_path, date_column, output_path) w1
   = (with_line w1 ("File not found: " +:+ file_path), Ok tt)
   /\ process_data_sources lib (pre ++ (file_path, date_column, output_path) :: post)
        start_date end_date w
      = process_data_sources lib post start_date end_date
          (with_line w1 ("File not found: " +:+ file_path)))
  /\
  (os_path_exists (fs w) path1 = true ->
   filter_data_by_date lib (fs w) path1 start_date end_date column1 = Ok filtered1 ->
   open_w (clock w) output1 (fs w) = Ok opened1 ->
   os_path_exists
     (<[output1 := File (to_csv_text lib filtered1) (clock w)]> (fs w)) file_path = false ->
   os_path_exists
     (<[output1 := File (to_csv_text lib filtered1) (clock w)]> (fs w)) path3 = true ->
   filter_data_by_date lib
     (<[output1 := File (to_csv_text lib filtered1) (clock w)]> (fs w))
     path3 start_date end_date column3 = Ok filtered3 ->
   open_w (clock w) output3
     (<[output1 := File (to_csv_text lib filtered1) (clock w)]> (fs w)) = Ok opened3 ->
   process_data_sources lib
     [(path1, column1, output1); (file_path, date_column, output_path);
      (path3, column3, output3)] start_date end_date w
   = (mk_world
        (<[output3 := File (to_csv_text lib filtered3) (clock w)]>
           (<[output1 := File (to_csv_text lib filtered1) (clock w)]> (fs w)))
        (environ w)
        (stdout w ++ ["Processing file: " +:+ path1;
                      "Filtered data saved to: " +:+ output1;
                      "File not found: " +:+ file_path;
                      "Processing file: " +:+ path3;
                      "Filtered data saved to: " +:+ output3])
        (clock w),
      Ok tt)).
Proof.
  split.
  - intros Hpre Hmiss.
    split; [apply process_source_missing; exact Hmiss|].
    unfold process_data_sources. rewrite for_each_app.
    unfold process_data_sources in Hpre. rewrite Hpre.
    rewrite for_each_cons.
    rewrite (process_source_missing lib _ _ _ _ _ _ Hmiss). reflexivity.
  - intros He1 Hf1 Ho1 Hmiss He3 Hf3 Ho3.
    unfold process_data_sources. rewrite for_each_cons.
    rewrite (process_source_Ok lib _ _ _ _ _ _ _ _ He1 Hf1 Ho1).
    rewrite for_each_cons.
    rewrite process_source_missing by exact Hmiss.
    rewrite for_each_cons.
    rewrite (process_source_Ok lib _ _ _ _ _ _ filtered3 opened3)
      by (simpl; assumption).
    unfold ret. simpl. rewrite <- !app_assoc. reflexivity.
Qed.

(** C1 fails on the code: a triple whose file is there but has no date
    column raises [KeyError] out of the loop, and the triple after it,
    whose file filters well, is never written. *)
Lemma batch_aborts_on_failure :
  process_data_sources Demo.lib
    [("in/bad.csv", "date", "out/bad.csv"); ("in/good.csv", "date", "out/good.csv")]
    "2023-12-24" "2023-12-31" Demo.w0
  = (with_line Demo.w0 "Processing file: in/bad.csv", Raise (KeyError "date"))
  /\ filter_data_by_date Demo.lib Demo.disk "in/good.csv" "2023-12-24" "2023-12-31" "date"
     = Ok Demo.kept_frame
  /\ fs (fst (process_data_sources Demo.lib
                [("in/bad.csv", "date", "out/bad.csv");
                 ("in/good.csv", "date", "out/good.csv")]
                "2023-12-24" "2023-12-31" Demo.w0))
       !! "out/good.csv" = None.
Proof. repeat split; vm_compute; reflexivity. Qed.

Lemma missing_source_skipped_witness :
  (process_data_sources Demo.lib [Demo.source_1] "2023-12-24" "2023-12-31" Demo.w0
   = (Demo.w1, Ok tt)
   /\ os_path_exists (fs Demo.w1) "in/none.csv" = false
   /\ process_data_sources Demo.lib [Demo.source_1; Demo.source_2; Demo.source_3]
        "2023-12-24" "2023-12-31" Demo.w0
      = process_data_sources Demo.lib [Demo.source_3] "2023-12-24" "2023-12-31"
          (with_line Demo.w1 "File not found: in/none.csv"))
  /\
  (os_path_exists Demo.disk "in/good.csv" = true
   /\ os_path_exists Demo.disk_1 "in/none.csv" = false
   /\ os_path_exists Demo.disk_1 "in/more.csv" = true
   /\ process_data_sources Demo.lib [Demo.source_1; Demo.source_2; Demo.source_3]
        "2023-12-24" "2023-12-31" Demo.w0
      = (mk_world
           (<["out/more.csv" := File Demo.kept_csv Demo.noon]> Demo.disk_1)
           Demo.env
           ["Processing file: in/good.csv";
            "Filtered data saved to: out/good.csv";
            "File not found: in/none.csv";
            "Processing file: in/more.csv";
            "Filtered data saved to: out/more.csv"]
           Demo.noon,
         Ok tt)).
Proof.
  destruct (missing_source_skipped Demo.lib "2023-12-24" "2023-12-31"
              [Demo.source_1] [Demo.source_3] "in/none.csv" "date" "out/none.csv"
              Demo.w0 Demo.w1
              "in/good.csv" "date" "out/good.csv" "in/more.csv" "date" "out/more.csv"
              Demo.kept_frame Demo.kept_frame
              (<["out/good.csv" := File "" Demo.noon]> Demo.disk)
              (<["out/more.csv" := File "" Demo.noon]> Demo.disk_1))
    as [Hskip Hthree].
  split.
  - split; [vm_compute; reflexivity|]. split; [vm_compute; reflexivity|].
    apply Hskip; vm_compute; reflexivity.
  - split; [vm_compute; reflexivity|]. split; [vm_compute; reflexivity|].
    split; [vm_compute; reflexivity|].
    apply Hthree; vm_compute; reflexivity.
Defined.

(** ** Absent configuration *)

(** A configuration value that is not set, or set to the empty text. *)
Lemma truthy_None (o : option string) :
  truthy o = None <-> o = None \/ o = Some "".
Proof.
  destruct o as [s|]; simpl; [|tauto].
  destruct (String.eqb_spec s ""); split; try tauto; try discriminate.
  - intros _. right. congruence.
  - intros [H|H]; congruence.
Qed.

(** C9. When the source path or the output path is not configured, or the
    source path does not exist, each orchestration prints one notice and
    returns: no exception, and the file system is as it was. *)
Theorem missing_configuration_returns (lib : Library) (w : world)
  (start_date end_date : string) :
  ((truthy (load_dotenv_env lib (fs w) (environ w) !! "SPOTIFY_DATA_PATH") = None
    \/ truthy (load_dotenv_env lib (fs w) (environ w) !! "OUTPUT_PATH") = None
    \/ exists p, load_dotenv_env lib (fs w) (environ w) !! "SPOTIFY_DATA_PATH" = Some p
                 /\ os_path_exists (fs w) p = false) ->
   exists notice,
     notice ∈ ["Spotify data path not found or not specified in .env file.";
               "Output path not specified in .env file."]
     /\ process_spotify_data lib start_date end_date w
        = (with_line (with_environ w (load_dotenv_env lib (fs w) (environ w))) notice,
           Ok tt))
  /\
  ((truthy (load_dotenv_env lib (fs w) (environ w) !! "SCREENSHOTS_PATH") = None
    \/ truthy (load_dotenv_env lib (fs w) (environ w) !! "OUTPUT_PATH") = None
    \/ exists p, load_dotenv_env lib (fs w) (environ w) !! "SCREENSHOTS_PATH" = Some p
                 /\ os_path_exists (fs w) p = false) ->
   exists notice,
     notice ∈ ["Screenshots path not found or not specified in .env file.";
               "Output path not specified in .env file."]
     /\ process_screenshots lib start_date end_date w
        = (with_line (with_environ w (load_dotenv_env lib (fs w) (environ w))) notice,
           Ok tt)).
Proof.
  set (env := load_dotenv_env lib (fs w) (environ w)).
  split; intros H.
  - unfold process_spotify_data, bind, load_dotenv, getenv, get_world. simpl.
    fold env.
    destruct (truthy (env !! "SPOTIFY_DATA_PATH")) as [p|] eqn:Hp;
      [|eexists; split; [apply list_elem_of_here|reflexivity]].
    destruct (os_path_exists (fs w) p) eqn:He; simpl;
      [|eexists; split; [apply list_elem_of_here|reflexivity]].
    destruct (truthy (env !! "OUTPUT_PATH")) as [o|] eqn:Hout;
      [|eexists; split; [apply list_elem_of_further, list_elem_of_here|reflexivity]].
    exfalso. destruct H as [H|[H|(q & Hq & Hne)]]; [discriminate..|].
    rewrite Hq in Hp. simpl in Hp.
    destruct (String.eqb q ""); [discriminate|]. congruence.
  - unfold process_screenshots, bind, load_dotenv, getenv, get_world. simpl.
    fold env.
    destruct (truthy (env !! "SCREENSHOTS_PATH")) as [p|] eqn:Hp;
      [|eexists; split; [apply list_elem_of_here|reflexivity]].
    destruct (os_path_exists (fs w) p) eqn:He; simpl;
      [|eexists; split; [apply list_elem_of_here|reflexivity]].
    destruct (truthy (env !! "OUTPUT_PATH")) as [o|] eqn:Hout;
      [|eexists; split; [apply list_elem_of_further, list_elem_of_here|reflexivity]].
    exfalso. destruct H as [H|[H|(q & Hq & Hne)]]; [discriminate..|].
    rewrite Hq in Hp. simpl in Hp.
    destruct (String.eqb q ""); [discriminate|]. congruence.
Qed.

Lemma missing_configuration_returns_witness :
  (truthy (load_dotenv_env Demo.lib (fs Demo.bare) (environ Demo.bare)
             !! "SPOTIFY_DATA_PATH") = None
   /\ exists notice,
        notice ∈ ["Spotify data path not found or not specified in .env file.";
                  "Output path not specified in .env file."]
        /\ process_spotify_data Demo.lib "2023-12-24" "2023-12-31" Demo.bare
           = (with_line
                (with_environ Demo.bare
                   (load_dotenv_env Demo.lib (fs Demo.bare) (environ Demo.bare)))
                notice,
              Ok tt))
  /\
  (truthy (load_dotenv_env Demo.lib (fs Demo.bare) (environ Demo.bare)
             !! "SCREENSHOTS_PATH") = None
   /\ exists notice,
        notice ∈ ["Screenshots path not found or not specified in .env file.";
                  "Output path not specified in .env file."]
        /\ process_screenshots Demo.lib "2023-12-24" "2023-12-31" Demo.bare
           = (with_line
                (with_environ Demo.bare
                   (load_dotenv_env Demo.lib (fs Demo.bare) (environ Demo.bare)))
                notice,
              Ok tt)).
Proof.
  destruct (missing_configuration_returns Demo.lib Demo.bare "2023-12-24" "2023-12-31")
    as [Hspotify Hshots].
  split; (split; [vm_compute; reflexivity|]).
  - apply Hspotify. left. vm_compute. reflexivity.
  - apply Hshots. left. vm_compute. reflexivity.
Defined.

(** ** One journal for every history file *)

Lemma last_suffix {A} (l1 l : list A) (x : A) :
  l1 `suffix_of` l -> last l1 = Some x -> last l = Some x.
Proof. intros [k ->] H. rewrite last_app, H. reflexivity. Qed.

Lemma join_suffix (a b : string) (l : list ascii) :
  l `suffix_of` chars b -> l `suffix_of` chars (os_path_join a b).
Proof.
  intros H. unfold os_path_join. destruct (startswith b "/"); [exact H|].
  rewrite chars_append. apply suffix_app_r. exact H.
Qed.

Lemma journal_name_suffix (start_date end_date : string) :
  chars ".txt" `suffix_of` chars (journal_name start_date end_date).
Proof.
  unfold journal_name. rewrite !chars_append.
  do 4 apply suffix_app_r. reflexivity.
Qed.

(** A history file is never the journal: their names end differently. *)
Lemma history_file_not_journal (spotify_path output_dir start_date end_date name : string) :
  is_history_file name = true ->
  os_path_join spotify_path name <> journal_path output_dir start_date end_date.
Proof.
  unfold is_history_file, endswith. intros H E.
  apply andb_true_iff in H as [_ H]. apply bool_decide_eq_true in H.
  pose proof (last_suffix _ _ "n"%char (join_suffix spotify_path name _ H) eq_refl) as L1.
  pose proof (last_suffix _ _ "t"%char
                (join_suffix output_dir _ _ (journal_name_suffix start_date end_date))
                eq_refl) as L2.
  unfold journal_path in E. rewrite E in L1. rewrite L1 in L2. discriminate.
Qed.

Lemma same_files_refl (p : string) (f : gmap string node) : same_files_except p f f.
Proof. intros q c t _. tauto. Qed.

Lemma same_files_trans (p : string) (f g h : gmap string node) :
  same_files_except p f g -> same_files_except p g h -> same_files_except p f h.
Proof. intros H1 H2 q c t Hq. rewrite (H2 q c t Hq). apply H1, Hq. Qed.

Lemma os_makedirs_same_files (p d : string) (f f1 : gmap string node) :
  os_makedirs d f = Ok f1 -> same_files_except p f f1.
Proof.
  intros H q c t _. apply os_makedirs_Ok in H as (_ & Hkeep & Hnew). split.
  - intros Hq. apply Hnew in Hq as [Hq|Hq]; [exact Hq|discriminate].
  - apply Hkeep.
Qed.

Lemma filter_spotify_data_same_files (lib : Library) (p : string)
  (f g : gmap string node) (file_path start_date end_date : string) (d : list json) :
  same_files_except p f g -> file_path <> p ->
  filter_spotify_data lib g file_path start_date end_date = Ok d ->
  filter_spotify_data lib f file_path start_date end_date = Ok d.
Proof.
  intros Hsame Hne. unfold filter_spotify_data.
  destruct (strptime_date start_date); [|exact id].
  destruct (strptime_date end_date); [|exact id]. simpl.
  unfold read_file. destruct (g !! file_path) as [[|c t]|] eqn:Hg; try discriminate.
  apply (Hsame _ _ _ Hne) in Hg. rewrite Hg. exact id.
Qed.

Section Journals.

Context (lib : Library) (spotify_path output_dir start_date end_date : string).

(** What one history file that is processed without exception does. *)
Lemma process_spotify_file_Ok (name : string) (w w' : world) :
  is_history_file name = true ->
  process_spotify_file lib spotify_path output_dir start_date end_date name w
  = (w', Ok tt) ->
  exists d f1,
    filter_spotify_data lib (fs w) (os_path_join spotify_path name) start_date end_date
    = Ok d
    /\ snd (render lib d) = Ok tt
    /\ os_makedirs output_dir (fs w) = Ok f1
    /\ fs w' = <[journal_path output_dir start_date end_date :=
                   File (fst (render lib d)) (clock w)]> f1
    /\ clock w' = clock w.
Proof.
  intros Hn. unfold process_spotify_file. rewrite Hn.
  unfold bind at 1. unfold print at 1.
  unfold bind at 1. unfold fs_read at 1. simpl.
  destruct (filter_spotify_data lib (fs w) (os_path_join spotify_path name)
              start_date end_date) as [d|e] eqn:Hd; [|discriminate].
  set (w1 := with_line w _).
  destruct (os_makedirs output_dir (fs w1)) as [f1|e] eqn:Hm.
  - destruct (open_w (clock w1) (journal_path output_dir start_date end_date) f1)
      as [f2|e] eqn:Ho.
    + rewrite (save_spec lib w1 d _ _ _ f1 f2 Hm Ho). simpl.
      destruct (snd (render lib d)) as [[]|e] eqn:Hr; [|discriminate].
      intros [= <-]. exists d, f1. auto.
    + rewrite (save_open_raises lib w1 d _ _ _ f1 e Hm Ho). discriminate.
  - rewrite (save_makedirs_raises lib w1 d _ _ _ e Hm). discriminate.
Qed.

Lemma process_spotify_file_other (name : string) (w : world) :
  is_history_file name = false ->
  process_spotify_file lib spotify_path output_dir start_date end_date name w
  = (w, Ok tt).
Proof. intros Hn. unfold process_spotify_file. rewrite Hn. reflexivity. Qed.

(** The loop of lines 131-139 when it ends without exception: every
    history file was filtered and rendered, only the journal was written,
    and the journal holds the records of the last history file. *)
Lemma history_loop (names : list string) (w w' : world) :
  for_each names
    (process_spotify_file lib spotify_path output_dir start_date end_date) w
  = (w', Ok tt) ->
  clock w' = clock w
  /\ same_files_except (journal_path output_dir start_date end_date) (fs w) (fs w')
  /\ Forall (fun n => exists d,
               filter_spotify_data lib (fs w) (os_path_join spotify_path n)
                 start_date end_date = Ok d
               /\ snd (render lib d) = Ok tt)
       (List.filter is_history_file names)
  /\ forall name, last (List.filter is_history_file names) = Some name ->
       exists d,
         filter_spotify_data lib (fs w) (os_path_join spotify_path name)
           start_date end_date = Ok d
         /\ fs w' !! journal_path output_dir start_date end_date
            = Some (File (fst (render lib d)) (clock w)).
Proof.
  revert w'. induction names as [|n names IH] using rev_ind; intros w' H.
  - injection H as <-. split; [reflexivity|]. split; [apply same_files_refl|].
    split; [constructor|]. intros name Hl. discriminate.
  - rewrite for_each_app in H.
    destruct (for_each names _ w) as [wm [[]|e]] eqn:Hinit; [|discriminate].
    destruct (IH wm eq_refl) as (Hclock & Hsame & Hall & Hlast).
    rewrite for_each_cons in H.
    rewrite List.filter_app. simpl.
    destruct (is_history_file n) eqn:Hn.
    + destruct (process_spotify_file lib spotify_path output_dir start_date end_date n wm)
        as [w2 [[]|e]] eqn:Hstep; [|discriminate].
      injection H as <-.
      apply (process_spotify_file_Ok n wm w2 Hn) in Hstep
        as (d & f1 & Hd & Hr & Hm & Hfs & Hc).
      pose proof (history_file_not_journal spotify_path output_dir start_date end_date
                    n Hn) as Hne.
      apply (filter_spotify_data_same_files lib _ (fs w) (fs wm) _ _ _ _ Hsame Hne) in Hd.
      split; [congruence|]. split; [|split].
      * apply (same_files_trans _ _ (fs wm)); [exact Hsame|].
        apply (same_files_trans _ _ f1);
          [apply (os_makedirs_same_files _ output_dir), Hm|].
        intros q c t Hq. rewrite Hfs, lookup_insert_ne by congruence. tauto.
      * apply Forall_app. split; [exact Hall|]. constructor; [eauto|constructor].
      * intros name Hl. rewrite last_snoc in Hl. injection Hl as <-.
        exists d. split; [exact Hd|]. rewrite Hfs, lookup_insert_eq. congruence.
    + rewrite process_spotify_file_other in H by exact Hn. injection H as <-.
      rewrite app_nil_r. auto.
Qed.

End Journals.




(** * Further properties of the code *)

(** ** The order on datetimes is transitive *)

Lemma lex_compare_le_trans (a b c : list Z) :
  lex_compare a b <> Gt -> lex_compare b c <> Gt -> lex_compare a c <> Gt.
Proof.
  revert b c. induction a as [|x a IH]; intros [|y b] [|z c]; simpl;
    try congruence.
  destruct (Z.compare x y) eqn:Exy; [| |congruence];
    destruct (Z.compare y z) eqn:Eyz; try congruence; intros H1 H2.
  - apply Z.compare_eq_iff in Exy. apply Z.compare_eq_iff in Eyz. subst.
    rewrite Z.compare_refl. eauto.
  - apply Z.compare_eq_iff in Exy. subst. rewrite Eyz. congruence.
  - apply Z.compare_eq_iff in Eyz. subst. rewrite Exy. congruence.
  - change (x < y) in Exy. change (y < z) in Eyz.
    rewrite (proj2 (Z.compare_lt_iff x z)) by lia. congruence.
Qed.

Lemma dt_leb_Gt (a b : datetime) : dt_leb a b = true <-> dt_compare a b <> Gt.
Proof. unfold dt_leb. destruct (dt_compare a b); split; congruence. Qed.

Lemma dt_leb_trans (a b c : datetime) :
  dt_leb a b = true -> dt_leb b c = true -> dt_leb a c = true.
Proof.
  rewrite !dt_leb_Gt. unfold dt_compare. apply lex_compare_le_trans.
Qed.

Lemma in_range_widen (s1 e1 s2 e2 t : datetime) :
  dt_leb s2 s1 = true -> dt_leb e1 e2 = true ->
  in_range s1 e1 t = true -> in_range s2 e2 t = true.
Proof.
  intros Hs He H. apply in_range_spec in H as [H1 H2]. apply in_range_spec.
  split; eauto using dt_leb_trans.
Qed.

Lemma in_range_inverted (start end_ t : datetime) :
  dt_ltb end_ start = true -> in_range start end_ t = false.
Proof.
  intros H. destruct (in_range start end_ t) eqn:E; [|reflexivity].
  apply in_range_spec in E as [H1 H2].
  pose proof (dt_leb_trans _ _ _ H1 H2) as Hle.
  rewrite (dt_ltb_not_leb start end_ H) in Hle. discriminate.
Qed.

(** What [filter_spotify_data] returns, when it returns. *)
Lemma filter_spotify_data_Ok (lib : Library) (f : gmap string node)
  (file_path start_date end_date : string) (out : list json) :
  filter_spotify_data lib f file_path start_date end_date = Ok out ->
  exists start end_ entries,
    strptime_date start_date = Ok start
    /\ strptime_date end_date = Ok end_
    /\ read_entries lib f file_path = Ok entries
    /\ Forall (fun e => is_Some (entry_time e)) entries
    /\ out = List.filter (keeps start end_) entries.
Proof.
  intros H. unfold filter_spotify_data in H.
  inv_bind H as start Hs. inv_bind H as end_ He. inv_bind H as content Hc.
  inv_bind H as data Hd. inv_bind H as entries Hi.
  apply filter_entries_Ok in H as [Hall ->].
  exists start, end_, entries.
  split; [exact Hs|]. split; [exact He|]. split; [|split; [|reflexivity]].
  - unfold read_entries. rewrite Hc. simpl. rewrite Hd. exact Hi.
  - eapply Forall_impl; [exact Hall|]. intros e [t Ht].
    unfold entry_time. rewrite Ht. eauto.
Qed.

Lemma sublist_list_filter_impl {A} (p q : A -> bool) (l : list A) :
  (forall x, p x = true -> q x = true) ->
  sublist (List.filter p l) (List.filter q l).
Proof.
  intros Hpq. induction l as [|x l IH]; simpl; [constructor|].
  destruct (p x) eqn:Ep.
  - rewrite (Hpq x Ep). apply sublist_skip, IH.
  - destruct (q x); [apply sublist_cons|]; exact IH.
Qed.

Lemma keeps_widen (s1 e1 s2 e2 : datetime) (e : json) :
  dt_leb s2 s1 = true -> dt_leb e1 e2 = true ->
  keeps s1 e1 e = true -> keeps s2 e2 e = true.
Proof.
  unfold keeps. destruct (entry_ts e); [|discriminate]. apply in_range_widen.
Qed.

(** X1. A wider range keeps at least what a narrower range keeps, in the
    same order: when the log filter returns for one range, it returns for
    every range around it, and the first result is a subsequence of the
    second. *)
Theorem filter_spotify_data_monotone (lib : Library) (f : gmap string node)
  (file_path start1 end1 start2 end2 : string) (s1 e1 s2 e2 : datetime)
  (narrow : list json) :
  strptime_date start1 = Ok s1 -> strptime_date end1 = Ok e1 ->
  strptime_date start2 = Ok s2 -> strptime_date end2 = Ok e2 ->
  dt_leb s2 s1 = true -> dt_leb e1 e2 = true ->
  filter_spotify_data lib f file_path start1 end1 = Ok narrow ->
  exists wide,
    filter_spotify_data lib f file_path start2 end2 = Ok wide
    /\ sublist narrow wide.
Proof.
  intros Hs1 He1 Hs2 He2 Hs He H.
  apply filter_spotify_data_Ok in H
    as (s1' & e1' & entries & Hs1' & He1' & Hr & Hall & ->).
  rewrite Hs1 in Hs1'. rewrite He1 in He1'.
  injection Hs1' as <-. injection He1' as <-.
  exists (List.filter (keeps s2 e2) entries). split.
  - apply (filter_spotify_data_returns lib f _ _ _ s2 e2 entries); assumption.
  - apply sublist_list_filter_impl. intros e. apply keeps_widen; assumption.
Qed.

Lemma filter_spotify_data_monotone_witness :
  strptime_date "2023-12-24" = Ok dec_24
  /\ strptime_date "2023-12-31" = Ok dec_31
  /\ strptime_date "2023-12-01" = Ok (mk_datetime 2023 12 1 0 0 0 0)
  /\ strptime_date "2024-01-31" = Ok (mk_datetime 2024 1 31 0 0 0 0)
  /\ filter_spotify_data Edge.lib Edge.disk "logs/week.json" "2023-12-24" "2023-12-31"
     = Ok [Demo.entry "2023-12-25T10:00:00Z" "first"]
  /\ exists wide,
       filter_spotify_data Edge.lib Edge.disk "logs/week.json" "2023-12-01" "2024-01-31"
       = Ok wide
       /\ sublist [Demo.entry "2023-12-25T10:00:00Z" "first"] wide.
Proof.
  split; [vm_compute; reflexivity|]. split; [vm_compute; reflexivity|].
  split; [vm_compute; reflexivity|]. split; [vm_compute; reflexivity|].
  split; [vm_compute; reflexivity|].
  apply (filter_spotify_data_monotone Edge.lib Edge.disk "logs/week.json"
           "2023-12-24" "2023-12-31" "2023-12-01" "2024-01-31"
           dec_24 dec_31 (mk_datetime 2023 12 1 0 0 0 0) (mk_datetime 2024 1 31 0 0 0 0));
    vm_compute; reflexivity.
Defined.

Lemma list_filter_none {A} (p : A -> bool) (l : list A) :
  (forall x, p x = false) -> List.filter p l = [].
Proof.
  intros Hp. induction l as [|x l IH]; simpl; [reflexivity|].
  rewrite Hp. exact IH.
Qed.

(** X2. The range is not checked: with an end date before the start date
    the log filter raises nothing and, when the file is well formed,
    returns the empty list. *)
Theorem filter_spotify_data_inverted_range (lib : Library) (f : gmap string node)
  (file_path start_date end_date : string) (start end_ : datetime)
  (entries : list json) :
  strptime_date start_date = Ok start ->
  strptime_date end_date = Ok end_ ->
  dt_ltb end_ start = true ->
  read_entries lib f file_path = Ok entries ->
  Forall (fun e => is_Some (entry_time e)) entries ->
  filter_spotify_data lib f file_path start_date end_date = Ok [].
Proof.
  intros Hs He Hinv Hr Hall.
  rewrite (filter_spotify_data_returns lib f _ _ _ start end_ entries Hs He Hr Hall).
  rewrite list_filter_none; [reflexivity|].
  intros e. unfold keeps. destruct (entry_ts e); [|reflexivity].
  apply in_range_inverted, Hinv.
Qed.

Lemma filter_spotify_data_inverted_range_witness :
  strptime_date "2023-12-31" = Ok dec_31
  /\ strptime_date "2023-12-24" = Ok dec_24
  /\ dt_ltb dec_24 dec_31 = true
  /\ filter_spotify_data Edge.lib Edge.disk "logs/week.json" "2023-12-31" "2023-12-24"
     = Ok [].
Proof.
  split; [vm_compute; reflexivity|]. split; [vm_compute; reflexivity|].
  split; [vm_compute; reflexivity|].
  apply (filter_spotify_data_inverted_range Edge.lib Edge.disk "logs/week.json"
           "2023-12-31" "2023-12-24" dec_31 dec_24
           [Demo.entry "2023-12-20T09:00:00Z" "early";
            Demo.entry "2023-12-25T10:00:00Z" "first";
            Demo.entry "2023-12-31T18:00:00Z" "evening"]);
    try (vm_compute; reflexivity).
  repeat constructor; vm_compute; eauto.
Defined.

(** ** Entries the log filter cannot read *)

Lemma filter_entries_raises (start end_ : datetime) (pre post : list json)
  (entry : json) (e : exn) :
  Forall (fun x => is_Some (entry_time x)) pre ->
  entry_ts entry = Raise e ->
  filter_entries start end_ (pre ++ entry :: post) = Raise e.
Proof.
  intros Hpre He. induction Hpre as [|x pre [t Ht] _ IH]; simpl.
  - rewrite He. reflexivity.
  - unfold entry_time in Ht. destruct (entry_ts x) as [tx|]; [|discriminate].
    simpl. rewrite IH. reflexivity.
Qed.

(** X3. One entry whose timestamp cannot be read loses the whole file:
    the log filter raises that entry's exception (KeyError for an entry
    without [ts]) and returns nothing, not even the entries before it. *)
Theorem malformed_entry_aborts_filter (lib : Library) (f : gmap string node)
  (file_path start_date end_date : string) (start end_ : datetime)
  (pre post : list json) (entry : json) (e : exn) :
  strptime_date start_date = Ok start ->
  strptime_date end_date = Ok end_ ->
  read_entries lib f file_path = Ok (pre ++ entry :: post)%list ->
  Forall (fun x => is_Some (entry_time x)) pre ->
  entry_ts entry = Raise e ->
  filter_spotify_data lib f file_path start_date end_date = Raise e.
Proof.
  intros Hs He Hr Hpre Hbad. unfold read_entries in Hr.
  inv_bind Hr as content Hc. inv_bind Hr as data Hd.
  unfold filter_spotify_data. rewrite Hs. simpl. rewrite He. simpl.
  rewrite Hc. simpl. rewrite Hd. simpl. rewrite Hr. simpl.
  apply filter_entries_raises; assumption.
Qed.

Lemma malformed_entry_aborts_filter_witness :
  read_entries Edge.lib Edge.disk "logs/missing_ts.json"
  = Ok ([Demo.entry "2023-12-25T10:00:00Z" "first"]
        ++ JDict [("platform", JStr "ios")]
        :: [Demo.entry "2023-12-26T11:30:00Z" "second"])%list
  /\ entry_ts (JDict [("platform", JStr "ios")]) = Raise (KeyError "ts")
  /\ filter_spotify_data Edge.lib Edge.disk "logs/missing_ts.json"
       "2023-12-24" "2023-12-31"
     = Raise (KeyError "ts").
Proof.
  split; [vm_compute; reflexivity|]. split; [vm_compute; reflexivity|].
  apply (malformed_entry_aborts_filter Edge.lib Edge.disk "logs/missing_ts.json"
           "2023-12-24" "2023-12-31" dec_24 dec_31
           [Demo.entry "2023-12-25T10:00:00Z" "first"]
           [Demo.entry "2023-12-26T11:30:00Z" "second"]
           (JDict [("platform", JStr "ios")]) (KeyError "ts"));
    try (vm_compute; reflexivity).
  repeat constructor. vm_compute. eauto.
Defined.

(** X4. A document that is not an array yields no entry: the log filter
    raises TypeError, except on the empty object and the empty string,
    where it returns the empty list. *)
Theorem non_array_document (lib : Library) (f : gmap string node)
  (file_path start_date end_date content : string) (start end_ : datetime)
  (data : json) :
  strptime_date start_date = Ok start ->
  strptime_date end_date = Ok end_ ->
  read_file f file_path = Ok content ->
  json_loads lib content = Ok data ->
  (forall items, data <> JList items) ->
  (data = JDict [] \/ data = JStr "" ->
   filter_spotify_data lib f file_path start_date end_date = Ok [])
  /\ (data <> JDict [] -> data <> JStr "" ->
      filter_spotify_data lib f file_path start_date end_date = Raise TypeError).
Proof.
  intros Hs He Hc Hd Hlist. unfold filter_spotify_data.
  rewrite Hs. simpl. rewrite He. simpl. rewrite Hc. simpl. rewrite Hd. simpl.
  split.
  - intros [-> | ->]; reflexivity.
  - intros Hdict Hstr.
    destruct data as [| b | z | t | str | items | members]; try reflexivity.
    + destruct str as [|c str]; [congruence|]. reflexivity.
    + exfalso. apply (Hlist items). reflexivity.
    + destruct members as [|[k v] members]; [congruence|]. reflexivity.
Qed.

Lemma non_array_document_witness :
  read_file Edge.disk "logs/object.json" = Ok "O"
  /\ json_loads Edge.lib "O" = Ok (JDict [("ts", JStr "2023-12-25T10:00:00Z")])
  /\ filter_spotify_data Edge.lib Edge.disk "logs/object.json" "2023-12-24" "2023-12-31"
     = Raise TypeError.
Proof.
  split; [vm_compute; reflexivity|]. split; [vm_compute; reflexivity|].
  apply (non_array_document Edge.lib Edge.disk "logs/object.json"
           "2023-12-24" "2023-12-31" "O" dec_24 dec_31
           (JDict [("ts", JStr "2023-12-25T10:00:00Z")]));
    try (vm_compute; reflexivity); intros; discriminate.
Defined.

(** ** The end of the range is midnight *)

Lemma make_datetime_Ok (y m d h mi s : Z) (t : datetime) :
  make_datetime y m d h mi s = Ok t ->
  t = mk_datetime y m d h mi s 0 /\ 0 <= h /\ 0 <= mi /\ 0 <= s.
Proof.
  unfold make_datetime.
  destruct (_ && _) eqn:E; [|discriminate]. intros [= <-].
  repeat (apply andb_true_iff in E as [E ?]).
  split; [reflexivity|]. repeat split; apply Z.leb_le; assumption.
Qed.

Lemma strptime_date_midnight (s : string) (d : datetime) :
  strptime_date s = Ok d ->
  hour d = 0 /\ minute d = 0 /\ second d = 0 /\ subsec d = 0.
Proof.
  unfold strptime_date.
  destruct (match_date _) as [|[[[y m] dd] rest] ?]; [discriminate|].
  destruct rest; [|discriminate].
  intros H. apply make_datetime_Ok in H as [-> _]. auto.
Qed.

Lemma strptime_ts_time (s : string) (t : datetime) :
  strptime_ts s = Ok t ->
  0 <= hour t /\ 0 <= minute t /\ 0 <= second t /\ subsec t = 0.
Proof.
  unfold strptime_ts.
  destruct (match_ts _) as [|[[[[y m] dd] [[h mi] sec]] rest] ?]; [discriminate|].
  destruct rest; [|discriminate].
  intros H. apply make_datetime_Ok in H as (-> & ? & ? & ?). simpl. auto.
Qed.

Lemma entry_ts_time (entry : json) (t : datetime) :
  entry_ts entry = Ok t ->
  0 <= hour t /\ 0 <= minute t /\ 0 <= second t /\ subsec t = 0.
Proof.
  unfold entry_ts. destruct (getitem entry "ts") as [v|]; [|discriminate].
  simpl. destruct v; try discriminate. apply strptime_ts_time.
Qed.

Lemma after_midnight_is_later (t end_ : datetime) :
  year t = year end_ -> month t = month end_ -> day t = day end_ ->
  hour end_ = 0 -> minute end_ = 0 -> second end_ = 0 -> subsec end_ = 0 ->
  0 <= hour t -> 0 <= minute t -> 0 <= second t -> subsec t = 0 ->
  hour t <> 0 \/ minute t <> 0 \/ second t <> 0 ->
  dt_leb t end_ = false.
Proof.
  intros Hy Hm Hd Hh Hmi Hs Hss Ht1 Ht2 Ht3 Ht4 Hne.
  unfold dt_leb, dt_compare, dt_fields. simpl.
  rewrite Hy, Hm, Hd, Hh, Hmi, Hs, Hss, Ht4, !Z.compare_refl.
  destruct (Z.compare_spec (hour t) 0) as [E1|E1|E1]; [|lia|reflexivity].
  destruct (Z.compare_spec (minute t) 0) as [E2|E2|E2]; [|lia|reflexivity].
  destruct (Z.compare_spec (second t) 0) as [E3|E3|E3]; [|lia|reflexivity].
  lia.
Qed.

(** X5. The end date stands for its midnight: an entry stamped on the day
    of the end date at any later time of day is left out by the log
    filter. *)
Theorem end_day_cut_at_midnight (lib : Library) (f : gmap string node)
  (file_path start_date end_date : string) (end_ : datetime)
  (out : list json) (entry : json) (t : datetime) :
  filter_spotify_data lib f file_path start_date end_date = Ok out ->
  strptime_date end_date = Ok end_ ->
  entry_ts entry = Ok t ->
  year t = year end_ -> month t = month end_ -> day t = day end_ ->
  hour t <> 0 \/ minute t <> 0 \/ second t <> 0 ->
  entry ∉ out.
Proof.
  intros H He Ht Hy Hm Hd Hne Hin.
  apply filter_spotify_data_Ok in H as (start & end' & entries & _ & He' & _ & _ & ->).
  rewrite He in He'. injection He' as <-.
  apply elem_of_list_filter_bool in Hin as [_ Hk].
  rewrite (keeps_ts _ _ _ _ Ht) in Hk. apply in_range_spec in Hk as [_ Hk].
  destruct (strptime_date_midnight _ _ He) as (? & ? & ? & ?).
  destruct (entry_ts_time _ _ Ht) as (? & ? & ? & ?).
  rewrite after_midnight_is_later in Hk by assumption. discriminate.
Qed.

Lemma end_day_cut_at_midnight_witness :
  filter_spotify_data Edge.lib Edge.disk "logs/week.json" "2023-12-24" "2023-12-31"
  = Ok [Demo.entry "2023-12-25T10:00:00Z" "first"]
  /\ entry_ts (Demo.entry "2023-12-31T18:00:00Z" "evening")
     = Ok (mk_datetime 2023 12 31 18 0 0 0)
  /\ Demo.entry "2023-12-31T18:00:00Z" "evening"
     ∉ [Demo.entry "2023-12-25T10:00:00Z" "first"].
Proof.
  split; [vm_compute; reflexivity|]. split; [vm_compute; reflexivity|].
  apply (end_day_cut_at_midnight Edge.lib Edge.disk "logs/week.json"
           "2023-12-24" "2023-12-31" dec_31 _ _ (mk_datetime 2023 12 31 18 0 0 0));
    try (vm_compute; reflexivity).
  left. vm_compute. discriminate.
Defined.

(** ** Two ranges *)

Lemma list_filter_comm {A} (p q : A -> bool) (l : list A) :
  List.filter p (List.filter q l) = List.filter q (List.filter p l).
Proof.
  induction l as [|x l IH]; simpl; [reflexivity|].
  destruct (p x) eqn:Ep, (q x) eqn:Eq; simpl; rewrite ?Ep, ?Eq, IH; reflexivity.
Qed.

(** X6. Filtering the entries by one range and the result by another
    gives the same entries whichever range comes first. *)
Theorem filter_entries_commute (s1 e1 s2 e2 : datetime) (data a b : list json) :
  filter_entries s1 e1 data = Ok a ->
  filter_entries s2 e2 a = Ok b ->
  exists a',
    filter_entries s2 e2 data = Ok a'
    /\ filter_entries s1 e1 a' = Ok b.
Proof.
  intros Ha Hb.
  apply filter_entries_Ok in Ha as [Hall ->].
  apply filter_entries_Ok in Hb as [_ ->].
  exists (List.filter (keeps s2 e2) data). split.
  - apply filter_entries_total, Hall.
  - rewrite filter_entries_total by (apply Forall_list_filter, Hall).
    rewrite list_filter_comm. reflexivity.
Qed.

Lemma filter_entries_commute_witness :
  filter_entries dec_24 dec_31
    [Demo.entry "2023-12-20T09:00:00Z" "early";
     Demo.entry "2023-12-25T10:00:00Z" "first";
     Demo.entry "2023-12-31T18:00:00Z" "evening"]
  = Ok [Demo.entry "2023-12-25T10:00:00Z" "first"]
  /\ filter_entries (mk_datetime 2023 12 1 0 0 0 0) (mk_datetime 2023 12 26 0 0 0 0)
       [Demo.entry "2023-12-25T10:00:00Z" "first"]
     = Ok [Demo.entry "2023-12-25T10:00:00Z" "first"]
  /\ exists a',
       filter_entries (mk_datetime 2023 12 1 0 0 0 0) (mk_datetime 2023 12 26 0 0 0 0)
         [Demo.entry "2023-12-20T09:00:00Z" "early";
          Demo.entry "2023-12-25T10:00:00Z" "first";
          Demo.entry "2023-12-31T18:00:00Z" "evening"]
       = Ok a'
       /\ filter_entries dec_24 dec_31 a'
          = Ok [Demo.entry "2023-12-25T10:00:00Z" "first"].
Proof.
  split; [vm_compute; reflexivity|]. split; [vm_compute; reflexivity|].
  apply (filter_entries_commute dec_24 dec_31
           (mk_datetime 2023 12 1 0 0 0 0) (mk_datetime 2023 12 26 0 0 0 0)
           _ [Demo.entry "2023-12-25T10:00:00Z" "first"]);
    vm_compute; reflexivity.
Defined.

(** ** What the tabular filter leaves of a row *)

Lemma get_set_cell_ne (i j : nat) (v : cell) (row : list cell) :
  j <> i -> get_cell j (set_cell i v row) = get_cell j row.
Proof.
  unfold get_cell. revert j row.
  induction i as [|i IH]; intros [|j] [|c row] Hne; simpl; try congruence.
  - destruct j; reflexivity.
  - rewrite IH by congruence. destruct j; reflexivity.
  - apply IH. congruence.
Qed.

(** X7. The tabular filter keeps the header as it is, and every row it
    returns is a row of the file with its date column converted to a
    timestamp that is not NaT and its other columns untouched. *)
Theorem filter_data_by_date_keeps_other_columns (lib : Library) (f : gmap string node)
  (file_path start_date end_date date_column : string) (frame : DataFrame) :
  filter_data_by_date lib f file_path start_date end_date date_column = Ok frame ->
  exists data i,
    read_frame lib f file_path = Ok data
    /\ column_index date_column (columns data) = Some i
    /\ columns frame = columns data
    /\ forall kept, kept ∈ rows frame ->
         (exists t, get_cell i kept = CTime (Some t))
         /\ exists row, row ∈ rows data
              /\ forall j, j <> i -> get_cell j kept = get_cell j row.
Proof.
  intros H. unfold filter_data_by_date in H.
  inv_bind H as content Hc. inv_bind H as data Hd.
  apply filter_frame_Ok in H as (i & converted & start & end_ & Hi & Hm & Hs & He & ->).
  exists data, i. split; [|split; [exact Hi|split; [reflexivity|]]].
  { unfold read_frame. rewrite Hc. exact Hd. }
  simpl. intros kept Hk. apply elem_of_list_filter_bool in Hk as [Hin Hr]. split.
  - unfold row_in_range in Hr.
    destruct (get_cell i kept) as [| |[t|]]; try discriminate. eauto.
  - apply map_result_Ok in Hm.
    apply list_elem_of_lookup in Hin as [n Hn].
    destruct (Forall2_lookup_r _ _ _ _ _ Hm Hn) as (row & Hrow & Hconv).
    exists row. split; [apply list_elem_of_lookup; eauto|].
    apply convert_row_from in Hconv as (t & _ & ->).
    intros j Hj. apply get_set_cell_ne, Hj.
Qed.

Lemma filter_data_by_date_keeps_other_columns_witness :
  filter_data_by_date Demo.lib Demo.disk "in/good.csv" "2023-12-24" "2023-12-31" "date"
  = Ok Demo.kept_frame
  /\ exists data i,
       read_frame Demo.lib Demo.disk "in/good.csv" = Ok data
       /\ column_index "date" (columns data) = Some i
       /\ columns Demo.kept_frame = columns data
       /\ forall kept, kept ∈ rows Demo.kept_frame ->
            (exists t, get_cell i kept = CTime (Some t))
            /\ exists row, row ∈ rows data
                 /\ forall j, j <> i -> get_cell j kept = get_cell j row.
Proof.
  split; [vm_compute; reflexivity|].
  apply (filter_data_by_date_keeps_other_columns Demo.lib Demo.disk "in/good.csv"
           "2023-12-24" "2023-12-31" "date" Demo.kept_frame).
  vm_compute. reflexivity.
Defined.

(** ** Batches *)

(** X8. A batch whose files are all missing writes nothing: it prints one
    notice for each triple, in order, and returns normally. *)
Theorem all_sources_missing (lib : Library) (start_date end_date : string)
  (sources : list (string * string * string)) (w : world) :
  Forall (fun source => os_path_exists (fs w) (source_path source) = false) sources ->
  process_data_sources lib sources start_date end_date w
  = (mk_world (fs w) (environ w)
       (stdout w ++ map (fun source => "File not found: " +:+ source_path source) sources)
       (clock w),
     Ok tt).
Proof.
  unfold process_data_sources. revert w.
  induction sources as [|[[p c] o] sources IH]; intros w Hall.
  - simpl. unfold ret. rewrite app_nil_r. destruct w; reflexivity.
  - apply Forall_cons in Hall as [Hp Hall]. rewrite for_each_cons.
    rewrite (process_source_missing lib _ _ _ _ _ _ Hp).
    rewrite IH by exact Hall. simpl. rewrite <- app_assoc. reflexivity.
Qed.

Lemma all_sources_missing_witness :
  Forall (fun source => os_path_exists (fs Demo.w0) (source_path source) = false)
    [Demo.source_2; ("in/absent.csv", "date", "out/absent.csv")]
  /\ process_data_sources Demo.lib
       [Demo.source_2; ("in/absent.csv", "date", "out/absent.csv")]
       "2023-12-24" "2023-12-31" Demo.w0
     = (mk_world Demo.disk Demo.env
          ["File not found: in/none.csv"; "File not found: in/absent.csv"] Demo.noon,
        Ok tt).
Proof.
  assert (H : Forall (fun source =>
                os_path_exists (fs Demo.w0) (source_path source) = false)
              [Demo.source_2; ("in/absent.csv", "date", "out/absent.csv")])
    by (repeat constructor).
  split; [exact H|].
  exact (all_sources_missing Demo.lib "2023-12-24" "2023-12-31" _ Demo.w0 H).
Defined.

(** X9. The batch stops at the first file that is there and cannot be
    filtered: the exception leaves the loop once the file is announced,
    what the triples before it wrote stays written, and no triple after it
    is looked at. *)
Theorem batch_stops_at_first_failure (lib : Library) (start_date end_date : string)
  (pre post : list (string * string * string))
  (file_path date_column output_path : string) (w w1 : world) (e : exn) :
  process_data_sources lib pre start_date end_date w = (w1, Ok tt) ->
  os_path_exists (fs w1) file_path = true ->
  filter_data_by_date lib (fs w1) file_path start_date end_date date_column = Raise e ->
  process_data_sources lib (pre ++ (file_path, date_column, output_path) :: post)
    start_date end_date w
  = (with_line w1 ("Processing file: " +:+ file_path), Raise e).
Proof.
  intros Hpre Hex Hf. unfold process_data_sources in *.
  rewrite for_each_app, Hpre. apply for_each_raises.
  apply process_source_raises; assumption.
Qed.

Lemma batch_stops_at_first_failure_witness :
  process_data_sources Demo.lib [Demo.source_1] "2023-12-24" "2023-12-31" Demo.w0
  = (Demo.w1, Ok tt)
  /\ os_path_exists (fs Demo.w1) "in/bad.csv" = true
  /\ filter_data_by_date Demo.lib (fs Demo.w1) "in/bad.csv" "2023-12-24" "2023-12-31" "date"
     = Raise (KeyError "date")
  /\ process_data_sources Demo.lib
       ([Demo.source_1] ++ ("in/bad.csv", "date", "out/bad.csv") :: [Demo.source_3])
       "2023-12-24" "2023-12-31" Demo.w0
     = (with_line Demo.w1 "Processing file: in/bad.csv", Raise (KeyError "date")).
Proof.
  split; [vm_compute; reflexivity|]. split; [vm_compute; reflexivity|].
  split; [vm_compute; reflexivity|].
  apply (batch_stops_at_first_failure Demo.lib "2023-12-24" "2023-12-31"
           [Demo.source_1] [Demo.source_3] "in/bad.csv" "date" "out/bad.csv"
           Demo.w0 Demo.w1 (KeyError "date"));
    vm_compute; reflexivity.
Defined.

(** ** The log orchestration on odd source directories *)

Lemma for_each_skipped {A} (body : A -> M unit) (l : list A) (w : world) :
  Forall (fun x => body x w = (w, Ok tt)) l ->
  for_each l body w = (w, Ok tt).
Proof.
  induction 1 as [|x l Hx _ IH]; [reflexivity|].
  rewrite for_each_cons, Hx. exact IH.
Qed.

Section Configured.

Context (lib : Library) (w : world) (start_date end_date : string)
  (spotify_path output_dir : string) (made : gmap string node).

Hypothesis spotify_set :
  truthy (load_dotenv_env lib (fs w) (environ w) !! "SPOTIFY_DATA_PATH")
  = Some spotify_path.
Hypothesis spotify_exists : os_path_exists (fs w) spotify_path = true.
Hypothesis output_set :
  truthy (load_dotenv_env lib (fs w) (environ w) !! "OUTPUT_PATH") = Some output_dir.
Hypothesis output_made : os_makedirs output_dir (fs w) = Ok made.

(** The orchestration once it is past its checks and has made the output
    directory. *)
Lemma process_spotify_data_configured :
  process_spotify_data lib start_date end_date w
  = match os_listdir made spotify_path with
    | Ok names =>
        for_each names
          (process_spotify_file lib spotify_path output_dir start_date end_date)
          (with_fs (with_environ w (load_dotenv_env lib (fs w) (environ w))) made)
    | Raise e =>
        (with_fs (with_environ w (load_dotenv_env lib (fs w) (environ w))) made, Raise e)
    end.
Proof.
  unfold process_spotify_data.
  unfold bind at 1. unfold load_dotenv at 1.
  unfold bind at 1. unfold getenv at 1.
  unfold bind at 1. unfold getenv at 1.
  unfold bind at 1. unfold get_world at 1.
  simpl. rewrite spotify_set, spotify_exists, output_set. simpl.
  unfold bind at 1. unfold makedirs, fs_update. simpl. rewrite output_made.
  unfold bind at 1. unfold fs_read. simpl.
  destruct (os_listdir made spotify_path); reflexivity.
Qed.

End Configured.

(** X10. When no file of the source directory matches the naming
    convention, the log orchestration makes the output directory and does
    nothing else: no file is read, no journal is written, nothing is
    printed, and it returns normally. *)
Theorem no_history_file_is_silent (lib : Library) (w : world)
  (start_date end_date spotify_path output_dir : string)
  (made : gmap string node) (names : list string) :
  truthy (load_dotenv_env lib (fs w) (environ w) !! "SPOTIFY_DATA_PATH")
    = Some spotify_path ->
  os_path_exists (fs w) spotify_path = true ->
  truthy (load_dotenv_env lib (fs w) (environ w) !! "OUTPUT_PATH") = Some output_dir ->
  os_makedirs output_dir (fs w) = Ok made ->
  os_listdir made spotify_path = Ok names ->
  Forall (fun name => is_history_file name = false) names ->
  process_spotify_data lib start_date end_date w
  = (with_fs (with_environ w (load_dotenv_env lib (fs w) (environ w))) made, Ok tt).
Proof.
  intros Hsp Hex Hod Hm Hls Hnone.
  rewrite (process_spotify_data_configured lib w _ _ _ _ made Hsp Hex Hod Hm), Hls.
  apply for_each_skipped. eapply Forall_impl; [exact Hnone|].
  intros name Hn. apply process_spotify_file_other, Hn.
Qed.

Lemma no_history_file_is_silent_witness :
  os_makedirs "out" (fs Edge.w0) = Ok Edge.disk
  /\ os_listdir Edge.disk "logs"
     = Ok ["object.json"; "week.json"; "missing_ts.json"; "empty_object.json"]
  /\ process_spotify_data Edge.lib "2023-12-24" "2023-12-31" Edge.w0
     = (with_fs
          (with_environ Edge.w0
             (load_dotenv_env Edge.lib (fs Edge.w0) (environ Edge.w0)))
          Edge.disk,
        Ok tt).
Proof.
  split; [vm_compute; reflexivity|]. split; [vm_compute; reflexivity|].
  apply (no_history_file_is_silent Edge.lib Edge.w0 "2023-12-24" "2023-12-31"
           "logs" "out" Edge.disk
           ["object.json"; "week.json"; "missing_ts.json"; "empty_object.json"]);
    try (vm_compute; reflexivity).
  repeat constructor.
Defined.

(** X11. When the configured source path is a regular file, the log
    orchestration passes its existence check, makes the output directory,
    and then raises NotADirectoryError out of the listing. *)
Theorem spotify_path_regular_file (lib : Library) (w : world)
  (start_date end_date spotify_path output_dir content : string) (mtime : datetime)
  (made : gmap string node) :
  truthy (load_dotenv_env lib (fs w) (environ w) !! "SPOTIFY_DATA_PATH")
    = Some spotify_path ->
  fs w !! spotify_path = Some (File content mtime) ->
  truthy (load_dotenv_env lib (fs w) (environ w) !! "OUTPUT_PATH") = Some output_dir ->
  os_makedirs output_dir (fs w) = Ok made ->
  process_spotify_data lib start_date end_date w
  = (with_fs (with_environ w (load_dotenv_env lib (fs w) (environ w))) made,
     Raise NotADirectoryError).
Proof.
  intros Hsp Hfile Hod Hm.
  assert (Hex : os_path_exists (fs w) spotify_path = true)
    by (unfold os_path_exists; rewrite Hfile; reflexivity).
  rewrite (process_spotify_data_configured lib w _ _ _ _ made Hsp Hex Hod Hm).
  apply os_makedirs_Ok in Hm as (_ & Hkeep & _).
  unfold os_listdir. rewrite (Hkeep _ _ Hfile). reflexivity.
Qed.

Lemma spotify_path_regular_file_witness :
  fs Edge.w_file !! "logs/week.json" = Some (File "W" Demo.old)
  /\ os_makedirs "out" (fs Edge.w_file) = Ok Edge.disk
  /\ process_spotify_data Edge.lib "2023-12-24" "2023-12-31" Edge.w_file
     = (with_fs
          (with_environ Edge.w_file
             (load_dotenv_env Edge.lib (fs Edge.w_file) (environ Edge.w_file)))
          Edge.disk,
        Raise NotADirectoryError).
Proof.
  split; [vm_compute; reflexivity|]. split; [vm_compute; reflexivity|].
  apply (spotify_path_regular_file Edge.lib Edge.w_file "2023-12-24" "2023-12-31"
           "logs/week.json" "out" "W" Demo.old Edge.disk);
    vm_compute; reflexivity.
Defined.

(** ** Paths of the entries of a directory *)

Lemma text_chars (s : string) : text (chars s) = s.
Proof. apply string_of_list_ascii_of_string. Qed.

Lemma chars_text (l : list ascii) : chars (text l) = l.
Proof. apply list_ascii_of_string_of_list_ascii. Qed.

Lemma existsb_rev_sep (l : list ascii) : existsb is_sep (rev l) = existsb is_sep l.
Proof.
  induction l as [|c l IH]; simpl; [reflexivity|].
  rewrite existsb_app, IH. simpl. rewrite orb_false_r. apply orb_comm.
Qed.

Lemma take_until_sep_plain (l : list ascii) :
  existsb is_sep l = false -> take_until_sep l = l.
Proof.
  induction l as [|c l IH]; simpl; [reflexivity|].
  intros H. apply orb_false_iff in H as [Hc Hl]. rewrite Hc, IH by exact Hl. reflexivity.
Qed.

Lemma take_until_sep_app (l1 l2 : list ascii) :
  existsb is_sep l1 = false -> take_until_sep (l1 ++ "/"%char :: l2) = l1.
Proof.
  induction l1 as [|c l1 IH]; simpl; [reflexivity|].
  intros H. apply orb_false_iff in H as [Hc Hl]. rewrite Hc, IH by exact Hl. reflexivity.
Qed.

Lemma drop_until_sep_app (l1 l2 : list ascii) :
  existsb is_sep l1 = false ->
  drop_until_sep (l1 ++ "/"%char :: l2) = "/"%char :: l2.
Proof.
  induction l1 as [|c l1 IH]; simpl; [reflexivity|].
  intros H. apply orb_false_iff in H as [Hc Hl]. rewrite Hc. apply IH, Hl.
Qed.

Lemma is_plain_name_spec (name : string) :
  is_plain_name name = true -> name <> "" /\ existsb is_sep (chars name) = false.
Proof.
  unfold is_plain_name. intros H. apply andb_true_iff in H as [H1 H2].
  apply negb_true_iff in H1, H2. split; [|exact H2].
  apply String.eqb_neq. exact H1.
Qed.

Lemma startswith_plain (name : string) :
  is_plain_name name = true -> startswith name "/" = false.
Proof.
  intros H. apply is_plain_name_spec in H as [_ H].
  unfold startswith. apply bool_decide_eq_false. intros [k Hk].
  change (chars "/") with ["/"%char] in Hk. rewrite Hk in H. discriminate.
Qed.

Lemma dir_prefix_chars (d : string) :
  chars (dir_prefix d) = [] \/ exists k, chars (dir_prefix d) = (k ++ ["/"%char])%list.
Proof.
  unfold dir_prefix. destruct (String.eqb_spec d "") as [->|Hd]; simpl; [left; reflexivity|].
  destruct (endswith d "/") eqn:E.
  - right. unfold endswith in E. apply bool_decide_eq_true in E as [k Hk]. eauto.
  - right. exists (chars d). apply chars_append.
Qed.

Lemma os_path_join_plain (d name : string) :
  is_plain_name name = true -> os_path_join d name = dir_prefix d +:+ name.
Proof. intros H. unfold os_path_join. rewrite (startswith_plain name H). reflexivity. Qed.

(** The entry [name] of a directory has [name] as the last part of its
    path. *)
Lemma basename_join (d name : string) :
  is_plain_name name = true -> os_path_basename (os_path_join d name) = name.
Proof.
  intros H. rewrite (os_path_join_plain d name H).
  apply is_plain_name_spec in H as [_ H].
  unfold os_path_basename, os_path_split. simpl.
  rewrite chars_append, rev_app_distr.
  destruct (dir_prefix_chars d) as [-> | [k ->]].
  - simpl. rewrite app_nil_r.
    rewrite take_until_sep_plain by (rewrite existsb_rev_sep; exact H).
    rewrite rev_involutive. apply text_chars.
  - rewrite rev_app_distr. simpl.
    rewrite take_until_sep_app by (rewrite existsb_rev_sep; exact H).
    rewrite rev_involutive. apply text_chars.
Qed.

Lemma rev_chars_not_sep (d : string) :
  d <> "" -> endswith d "/" = false ->
  exists c l, rev (chars d) = c :: l /\ is_sep c = false.
Proof.
  intros Hd He. destruct (rev (chars d)) as [|c l] eqn:E.
  - exfalso. apply Hd. rewrite <- (text_chars d), <- (rev_involutive (chars d)), E.
    reflexivity.
  - exists c, l. split; [reflexivity|].
    destruct (is_sep c) eqn:Hc; [|reflexivity]. exfalso.
    unfold is_sep in Hc. apply Ascii.eqb_eq in Hc. subst c.
    unfold endswith in He. apply bool_decide_eq_false in He. apply He.
    exists (rev l). rewrite <- (rev_involutive (chars d)), E. reflexivity.
Qed.

(** The entry [name] of a directory written without a trailing separator
    has that directory as the directory of its path. *)
Lemma dirname_join (d name : string) :
  d <> "" -> endswith d "/" = false -> is_plain_name name = true ->
  os_path_dirname (os_path_join d name) = d.
Proof.
  intros Hd He H. rewrite (os_path_join_plain d name H).
  apply is_plain_name_spec in H as [_ H].
  destruct (rev_chars_not_sep d Hd He) as (c & l & Hr & Hc).
  unfold dir_prefix. rewrite (proj2 (String.eqb_neq d "") Hd), He. simpl.
  unfold os_path_dirname, os_path_split. simpl.
  rewrite !chars_append, !rev_app_distr. simpl. rewrite Hr.
  rewrite drop_until_sep_app by (rewrite existsb_rev_sep; exact H).
  simpl. rewrite Hc. simpl.
  change (rev l ++ [c])%list with (rev (c :: l)).
  rewrite <- Hr, rev_involutive. apply text_chars.
Qed.

Lemma entry_name_plain (d k name : string) :
  entry_name d k = Some name -> is_plain_name name = true.
Proof.
  unfold entry_name. destruct (bool_decide _); [|discriminate].
  set (l := drop _ _).
  destruct (bool_decide (l = [])) eqn:E1; [discriminate|].
  destruct (existsb is_sep l) eqn:E2; [discriminate|]. simpl.
  intros [= <-]. unfold is_plain_name. rewrite chars_text, E2.
  apply bool_decide_eq_false in E1.
  destruct l as [|c l']; [congruence|]. reflexivity.
Qed.

(** [os.listdir] gives plain names. *)
Lemma os_listdir_plain (f : gmap string node) (d : string) (names : list string) :
  os_listdir f d = Ok names -> Forall (fun name => is_plain_name name = true) names.
Proof.
  unfold os_listdir. destruct (f !! d) as [[|c t]|]; try discriminate.
  intros [= <-]. apply Forall_forall. intros name Hin.
  apply list_elem_of_omap in Hin as ([k v] & _ & Hk).
  apply (entry_name_plain d k name Hk).
Qed.

(** ** shutil.copy *)

Lemma shutil_copy_Ok (now : datetime) (src dst : string) (f f' : gmap string node) :
  is_dir f dst = true ->
  shutil_copy now src dst f = Ok f' ->
  exists c,
    read_file f src = Ok c
    /\ is_dir f (os_path_join dst (os_path_basename src)) = false
    /\ f' = <[os_path_join dst (os_path_basename src) := File c now]> f.
Proof.
  intros Hd. unfold shutil_copy. rewrite Hd.
  set (target := os_path_join dst (os_path_basename src)).
  destruct (String.eqb src target); [discriminate|].
  destruct (read_file f src) as [c|]; [|discriminate]. simpl.
  destruct (open_w now target f) as [f2|] eqn:Ho; [|discriminate]. simpl.
  intros [= <-]. apply open_w_Ok in Ho as [-> Hnd].
  exists c. split; [reflexivity|]. split; [exact Hnd|].
  unfold append_file. rewrite lookup_insert_eq, insert_insert_eq. reflexivity.
Qed.

Lemma shutil_copy_returns (now : datetime) (src dst c : string) (t : datetime)
  (f : gmap string node) :
  is_dir f dst = true ->
  f !! src = Some (File c t) ->
  src <> os_path_join dst (os_path_basename src) ->
  is_dir f (os_path_join dst (os_path_basename src)) = false ->
  os_path_basename (os_path_join dst (os_path_basename src)) <> "" ->
  parent_ok f (os_path_join dst (os_path_basename src)) = true ->
  shutil_copy now src dst f
  = Ok (<[os_path_join dst (os_path_basename src) := File c now]> f).
Proof.
  intros Hd Hsrc Hne Hnd Hbase Hpar. unfold shutil_copy. rewrite Hd.
  set (target := os_path_join dst (os_path_basename src)) in *.
  rewrite (proj2 (String.eqb_neq src target) Hne).
  unfold read_file. rewrite Hsrc. simpl.
  unfold open_w. rewrite Hnd, (proj2 (String.eqb_neq _ "") Hbase), Hpar. simpl.
  unfold append_file. rewrite lookup_insert_eq, insert_insert_eq. reflexivity.
Qed.
